(** * ASAT order validator: the resend-eligibility decision of [script/main.py]

    A shallow embedding of the decision core of the validator
    ([check_error_in_history], [check_credit_memo_in_history],
    [validate_revenue_model_rules], [get_order_details],
    [get_product_details], [get_multiple_orders], [validate_order] and the
    counting part of [main]), followed by the properties of the
    specification stated over it.

    Modelling conventions.
    - A Python [str] is a Rocq [string] holding its UTF-8 encoding.  Equality,
      concatenation, [in], [split], [replace] and [strip] act on the bytes the
      way Python acts on the code points; [len] counts code points.
    - A decoded JSON payload is modelled by its schema: a dict is a record
      whose optional keys are [option] fields ([d.get(k)] is the field,
      [None] when the key is missing), a list is a [list].  The
      [isinstance] guards of the source are therefore vacuous and left out.
    - The HTTP session is a snapshot: an oracle from URL to response.  Each
      request is appended to a trace, so that "this fetch never happens" is
      a statement about the trace.
    - Logging is not modelled. *)

From Stdlib Require Import String Ascii List ZArith Bool Lia DecimalString.
From Stdlib Require Import Sorted.
From stdpp Require Import base strings gmap.
Import ListNotations.
Open Scope string_scope.

(** ** Python strings *)

Module PyStr.

(** [sub in s] *)
Fixpoint contains (sub s : string) : bool :=
  String.prefix sub s ||
  match s with
  | EmptyString => false
  | String _ s' => contains sub s'
  end.

(** [s.split(sep)] for a one-character separator: never the empty list. *)
Fixpoint split (sep : ascii) (s : string) : list string :=
  match s with
  | EmptyString => [EmptyString]
  | String c s' =>
      if Ascii.eqb c sep then EmptyString :: split sep s'
      else match split sep s' with
           | part :: parts => String c part :: parts
           | [] => [String c EmptyString]
           end
  end.

Definition lower_char (c : ascii) : ascii :=
  let n := N_of_ascii c in
  if ((65 <=? n) && (n <=? 90))%N then ascii_of_N (n + 32) else c.

(** [s.lower()].  Only A-Z are mapped: the source uses the result for the
    single test ["error" in s.lower()], and no code point outside A-Z has a
    lower-case form containing the letters e, r or o. *)
Fixpoint lower (s : string) : string :=
  match s with
  | EmptyString => EmptyString
  | String c s' => String (lower_char c) (lower s')
  end.

(** [len(s)]: the number of code points, that is of bytes that are not
    UTF-8 continuation bytes (0x80-0xBF). *)
Fixpoint len (s : string) : nat :=
  match s with
  | EmptyString => 0
  | String c s' =>
      let n := N_of_ascii c in
      if ((128 <=? n) && (n <=? 191))%N then len s' else S (len s')
  end.

Definition bytes (l : list nat) : string :=
  string_of_list_ascii (map ascii_of_nat l).

(** The code points for which [str.isspace] holds, in UTF-8:
    U+0009-000D, U+001C-0020, U+0085, U+00A0, U+1680, U+2000-200A,
    U+2028, U+2029, U+202F, U+205F, U+3000. *)
Definition whitespace : list string :=
  map bytes
    ([[9]; [10]; [11]; [12]; [13]; [28]; [29]; [30]; [31]; [32];
      [194; 133]; [194; 160]; [225; 154; 128]]
     ++ map (fun k => [226; 128; 128 + k]) (seq 0 11)
     ++ [[226; 128; 168]; [226; 128; 169]; [226; 128; 175];
         [226; 129; 159]; [227; 128; 128]]).

(** [Some rest] when [s = p ++ rest]. *)
Fixpoint drop_prefix (p s : string) : option string :=
  match p, s with
  | EmptyString, _ => Some s
  | String a p', String b s' =>
      if Ascii.eqb a b then drop_prefix p' s' else None
  | String _ _, EmptyString => None
  end.

Fixpoint drop_any (tokens : list string) (s : string) : option string :=
  match tokens with
  | [] => None
  | t :: ts =>
      match drop_prefix t s with
      | Some rest => Some rest
      | None => drop_any ts s
      end
  end.

Fixpoint lstrip_with (tokens : list string) (fuel : nat) (s : string) : string :=
  match fuel with
  | 0 => s
  | S fuel' =>
      match drop_any tokens s with
      | Some rest => lstrip_with tokens fuel' rest
      | None => s
      end
  end.

Definition lstrip (s : string) : string :=
  lstrip_with whitespace (String.length s) s.

Definition rstrip (s : string) : string :=
  String.rev (lstrip_with (map String.rev whitespace) (String.length s) (String.rev s)).

(** [s.strip()] *)
Definition strip (s : string) : string := rstrip (lstrip s).

(** [s.replace(old, new)]: the occurrences of [old] are found left to right
    and do not overlap.  [skip] counts the bytes of an occurrence still to
    be dropped. *)
Fixpoint replace_from (old new : string) (skip : nat) (s : string) : string :=
  match s with
  | EmptyString => EmptyString
  | String c s' =>
      match skip with
      | S k => replace_from old new k s'
      | 0 =>
          if String.prefix old s
          then new ++ replace_from old new (String.length old - 1) s'
          else String c (replace_from old new 0 s')
      end
  end.

Fixpoint intersperse (new s : string) : string :=
  match s with
  | EmptyString => new
  | String c s' => new ++ String c (intersperse new s')
  end.

Definition replace (old new s : string) : string :=
  match old with
  | EmptyString => intersperse new s
  | String _ _ => replace_from old new 0 s
  end.

(** [str(n)] for a non-negative [int] such as a [len]. *)
Definition of_nat (n : nat) : string := NilEmpty.string_of_uint (Nat.to_uint n).

(** [str(z)] for an [int]. *)
Definition of_Z (z : Z) : string := NilZero.string_of_int (Z.to_int z).

(** Truth value of a string: [bool(s)]. *)
Definition truthy (s : string) : bool :=
  match s with EmptyString => false | String _ _ => true end.

Definition upper_char (c : ascii) : ascii :=
  let n := N_of_ascii c in
  if ((97 <=? n) && (n <=? 122))%N then ascii_of_N (n - 32) else c.

(** [s.upper()].  a-z are mapped, and so are U+017F (long s, to "S") and
    U+00DF (sharp s, to "SS"): the source uses the result for the single
    test [s.upper() in ["Y", "YES", "N", "NO"]], and these are the only
    code points outside a-z whose upper-case form is made of the letters
    Y, E, S, N and O. *)
Fixpoint upper (s : string) : string :=
  match s with
  | EmptyString => EmptyString
  | String c s' =>
      match s' with
      | String d s'' =>
          if (N_of_ascii c =? 197)%N && (N_of_ascii d =? 191)%N
          then String "S" (upper s'')
          else if (N_of_ascii c =? 195)%N && (N_of_ascii d =? 159)%N
          then String "S" (String "S" (upper s''))
          else String (upper_char c) (upper s')
      | EmptyString => String (upper_char c) EmptyString
      end
  end.

End PyStr.

(** ** Numbers

    [totalChargedAmount] is whatever number the JSON decoder produced, an
    [int] or a [float].  The program does three things with it: it compares
    it with [0], it takes its truth value (which for a Python number is
    [x != 0]) and it formats it in an f-string.  The development is
    parametric in the representation and in these operations. *)

Class PyNumber (num : Type) := {
  num_int0 : num;                (* the literal [0] *)
  num_eq0 : num -> bool;         (* [x == 0] *)
  num_str : num -> string;       (* [f"{x}"] *)
  num_int0_eq0 : num_eq0 num_int0 = true
}.

(** Amounts that are JSON integers. *)
#[export] Instance Z_PyNumber : PyNumber Z :=
  {| num_int0 := 0%Z;
     num_eq0 := fun z => (z =? 0)%Z;
     num_str := PyStr.of_Z;
     num_int0_eq0 := eq_refl |}.

(** ** Requests and their trace *)

Inductive response (T : Type) : Type :=
| ConnectionError                          (* [session.get] raised *)
| Response (ok : bool) (json : option T).  (* [None]: [resp.json()] raised *)
Arguments ConnectionError {T}.
Arguments Response {T} ok json.

(** A computation that issues GET requests: its value and the URLs it
    requested, in order. *)
Record M (A : Type) : Type := Traced { value : A; requests : list string }.
Arguments Traced {A} value requests.
Arguments value {A} m.
Arguments requests {A} m.

#[export] Instance M_ret : MRet M := fun A x => Traced x [].
#[export] Instance M_bind : MBind M := fun A B f m =>
  let m' := f (value m) in Traced (value m') (requests m ++ requests m').

Definition requested (url : string) : M unit := Traced tt [url].

(** ** Payloads *)

Record Event : Type := {
  eventType : string;          (* [event.get("eventType", "")] *)
  eventDescription : string    (* [event.get("eventDescription", "")] *)
}.

Record OrderDetails : Type := {
  orderStatus : option string;
  orderHistory : list Event    (* [order_details.get("orderHistory", [])] *)
}.

Record Article : Type := { id : option string; doi : option string }.

Record Journal : Type := { name : option string }.

(** An order id in the sibling list is a JSON string or number: the source
    passes it through [str] before comparing or fetching. *)
Inductive scalar : Type :=
| Str (s : string)
| Int (z : Z).

Record SiblingOrder : Type := {
  orderUniqueId : option scalar;
  siblingStatus : option string;       (* key [orderStatus] *)
  inCancelledState : option bool
}.

(** The body of the orders-by-article endpoint. *)
Record OrdersBody : Type := { payload : option (list SiblingOrder) }.

Record ProductJournal : Type := { revenueModel : option string }.

(** The product-details body; [product_other_keys] are the keys the
    program never reads, they only make the dict non-empty. *)
Record ProductData : Type := {
  productJournal : option ProductJournal;   (* key [journal], when a dict *)
  product_other_keys : list string
}.

(** [str(x)] of an optional scalar ([str(None)] is ["None"]). *)
Definition py_str (x : option scalar) : string :=
  match x with
  | None => "None"
  | Some (Str s) => s
  | Some (Int z) => PyStr.of_Z z
  end.

(** Truth values. *)
Definition truthy_scalar (x : option scalar) : bool :=
  match x with
  | None => false
  | Some (Str s) => PyStr.truthy s
  | Some (Int z) => negb (z =? 0)%Z
  end.

Definition truthy_str (x : option string) : bool :=
  match x with None => false | Some s => PyStr.truthy s end.

(** [x == lit] for an optional string [x]. *)
Definition eq_str (x : option string) (lit : string) : bool :=
  match x with None => false | Some s => String.eqb s lit end.

Definition truthy_product (d : ProductData) : bool :=
  bool_decide (is_Some (productJournal d)) || negb (bool_decide (product_other_keys d = [])).

Section Validator.

Context {num : Type} `{PyNumber num}.

Record PaymentDetails : Type := {
  paymentMethod : option string;
  totalChargedAmount : option num
}.

(** The order body; [other_keys] as for [ProductData]. *)
Record OrderData : Type := {
  orderDetails : option OrderDetails;
  article : option Article;
  journal : option Journal;
  paymentDetails : option PaymentDetails;
  other_keys : list string
}.

Definition truthy_order (d : OrderData) : bool :=
  bool_decide (is_Some (orderDetails d)) || bool_decide (is_Some (article d))
  || bool_decide (is_Some (journal d)) || bool_decide (is_Some (paymentDetails d))
  || negb (bool_decide (other_keys d = [])).

(** The session: what each endpoint answers to a GET on a URL. *)
Record Session : Type := {
  order_endpoint : string -> response OrderData;
  product_endpoint : string -> response ProductData;
  orders_endpoint : string -> response OrdersBody
}.

(** [OrderResult] without [context], [resend_status] and [resend_error]:
    [validate_order] only stores the first and never touches the others. *)
Record OrderResult : Type := {
  order_id : string;
  article_id : option string;
  order_status : option string;
  payment_method : option string;
  total_charged : option num;
  journal_name : option string;
  revenue_model : option string;
  article_doi : option string;
  has_error : bool;
  error_code : option string;
  error_description : option string;
  is_v041_error : bool;
  other_orders : list SiblingOrder;
  other_orders_not_canceled : nat;
  canceled_order_has_credit_memo : option bool;
  can_resend : bool;
  validation_reason : string;
  validation_step : string;
  error : option string
}.

(** [OrderResult(order_id=order_id)]: the dataclass defaults. *)
Definition new_OrderResult (order_id : string) : OrderResult :=
  {| order_id := order_id; article_id := None; order_status := None;
     payment_method := None; total_charged := None; journal_name := None;
     revenue_model := None; article_doi := None; has_error := false;
     error_code := None; error_description := None; is_v041_error := false;
     other_orders := []; other_orders_not_canceled := 0;
     canceled_order_has_credit_memo := None; can_resend := false;
     validation_reason := ""; validation_step := ""; error := None |}.

(** Attribute assignments [result.f = v]. *)

Definition set_article_id (v : option string) (r : OrderResult) : OrderResult :=
  {| order_id := order_id r; article_id := v; order_status := order_status r;
     payment_method := payment_method r; total_charged := total_charged r;
     journal_name := journal_name r; revenue_model := revenue_model r;
     article_doi := article_doi r; has_error := has_error r;
     error_code := error_code r; error_description := error_description r;
     is_v041_error := is_v041_error r; other_orders := other_orders r;
     other_orders_not_canceled := other_orders_not_canceled r;
     canceled_order_has_credit_memo := canceled_order_has_credit_memo r;
     can_resend := can_resend r; validation_reason := validation_reason r;
     validation_step := validation_step r; error := error r |}.

Definition set_order_status (v : option string) (r : OrderResult) : OrderResult :=
  {| order_id := order_id r; article_id := article_id r; order_status := v;
     payment_method := payment_method r; total_charged := total_charged r;
     journal_name := journal_name r; revenue_model := revenue_model r;
     article_doi := article_doi r; has_error := has_error r;
     error_code := error_code r; error_description := error_description r;
     is_v041_error := is_v041_error r; other_orders := other_orders r;
     other_orders_not_canceled := other_orders_not_canceled r;
     canceled_order_has_credit_memo := canceled_order_has_credit_memo r;
     can_resend := can_resend r; validation_reason := validation_reason r;
     validation_step := validation_step r; error := error r |}.

Definition set_payment_method (v : option string) (r : OrderResult) : OrderResult :=
  {| order_id := order_id r; article_id := article_id r;
     order_status := order_status r; payment_method := v;
     total_charged := total_charged r; journal_name := journal_name r;
     revenue_model := revenue_model r; article_doi := article_doi r;
     has_error := has_error r; error_code := error_code r;
     error_description := error_description r;
     is_v041_error := is_v041_error r; other_orders := other_orders r;
     other_orders_not_canceled := other_orders_not_canceled r;
     canceled_order_has_credit_memo := canceled_order_has_credit_memo r;
     can_resend := can_resend r; validation_reason := validation_reason r;
     validation_step := validation_step r; error := error r |}.

Definition set_total_charged (v : option num) (r : OrderResult) : OrderResult :=
  {| order_id := order_id r; article_id := article_id r;
     order_status := order_status r; payment_method := payment_method r;
     total_charged := v; journal_name := journal_name r;
     revenue_model := revenue_model r; article_doi := article_doi r;
     has_error := has_error r; error_code := error_code r;
     error_description := error_description r;
     is_v041_error := is_v041_error r; other_orders := other_orders r;
     other_orders_not_canceled := other_orders_not_canceled r;
     canceled_order_has_credit_memo := canceled_order_has_credit_memo r;
     can_resend := can_resend r; validation_reason := validation_reason r;
     validation_step := validation_step r; error := error r |}.

Definition set_journal_name (v : option string) (r : OrderResult) : OrderResult :=
  {| order_id := order_id r; article_id := article_id r;
     order_status := order_status r; payment_method := payment_method r;
     total_charged := total_charged r; journal_name := v;
     revenue_model := revenue_model r; article_doi := article_doi r;
     has_error := has_error r; error_code := error_code r;
     error_description := error_description r;
     is_v041_error := is_v041_error r; other_orders := other_orders r;
     other_orders_not_canceled := other_orders_not_canceled r;
     canceled_order_has_credit_memo := canceled_order_has_credit_memo r;
     can_resend := can_resend r; validation_reason := validation_reason r;
     validation_step := validation_step r; error := error r |}.

Definition set_revenue_model (v : option string) (r : OrderResult) : OrderResult :=
  {| order_id := order_id r; article_id := article_id r;
     order_status := order_status r; payment_method := payment_method r;
     total_charged := total_charged r; journal_name := journal_name r;
     revenue_model := v; article_doi := article_doi r;
     has_error := has_error r; error_code := error_code r;
     error_description := error_description r;
     is_v041_error := is_v041_error r; other_orders := other_orders r;
     other_orders_not_canceled := other_orders_not_canceled r;
     canceled_order_has_credit_memo := canceled_order_has_credit_memo r;
     can_resend := can_resend r; validation_reason := validation_reason r;
     validation_step := validation_step r; error := error r |}.

Definition set_article_doi (v : option string) (r : OrderResult) : OrderResult :=
  {| order_id := order_id r; article_id := article_id r;
     order_status := order_status r; payment_method := payment_method r;
     total_charged := total_charged r; journal_name := journal_name r;
     revenue_model := revenue_model r; article_doi := v;
     has_error := has_error r; error_code := error_code r;
     error_description := error_description r;
     is_v041_error := is_v041_error r; other_orders := other_orders r;
     other_orders_not_canceled := other_orders_not_canceled r;
     canceled_order_has_credit_memo := canceled_order_has_credit_memo r;
     can_resend := can_resend r; validation_reason := validation_reason r;
     validation_step := validation_step r; error := error r |}.

Definition set_has_error (v : bool) (r : OrderResult) : OrderResult :=
  {| order_id := order_id r; article_id := article_id r;
     order_status := order_status r; payment_method := payment_method r;
     total_charged := total_charged r; journal_name := journal_name r;
     revenue_model := revenue_model r; article_doi := article_doi r;
     has_error := v; error_code := error_code r;
     error_description := error_description r;
     is_v041_error := is_v041_error r; other_orders := other_orders r;
     other_orders_not_canceled := other_orders_not_canceled r;
     canceled_order_has_credit_memo := canceled_order_has_credit_memo r;
     can_resend := can_resend r; validation_reason := validation_reason r;
     validation_step := validation_step r; error := error r |}.

Definition set_error_code (v : option string) (r : OrderResult) : OrderResult :=
  {| order_id := order_id r; article_id := article_id r;
     order_status := order_status r; payment_method := payment_method r;
     total_charged := total_charged r; journal_name := journal_name r;
     revenue_model := revenue_model r; article_doi := article_doi r;
     has_error := has_error r; error_code := v;
     error_description := error_description r;
     is_v041_error := is_v041_error r; other_orders := other_orders r;
     other_orders_not_canceled := other_orders_not_canceled r;
     canceled_order_has_credit_memo := canceled_order_has_credit_memo r;
     can_resend := can_resend r; validation_reason := validation_reason r;
     validation_step := validation_step r; error := error r |}.

Definition set_error_description (v : option string) (r : OrderResult) : OrderResult :=
  {| order_id := order_id r; article_id := article_id r;
     order_status := order_status r; payment_method := payment_method r;
     total_charged := total_charged r; journal_name := journal_name r;
     revenue_model := revenue_model r; article_doi := article_doi r;
     has_error := has_error r; error_code := error_code r;
     error_description := v; is_v041_error := is_v041_error r;
     other_orders := other_orders r;
     other_orders_not_canceled := other_orders_not_canceled r;
     canceled_order_has_credit_memo := canceled_order_has_credit_memo r;
     can_resend := can_resend r; validation_reason := validation_reason r;
     validation_step := validation_step r; error := error r |}.

Definition set_is_v041_error (v : bool) (r : OrderResult) : OrderResult :=
  {| order_id := order_id r; article_id := article_id r;
     order_status := order_status r; payment_method := payment_method r;
     total_charged := total_charged r; journal_name := journal_name r;
     revenue_model := revenue_model r; article_doi := article_doi r;
     has_error := has_error r; error_code := error_code r;
     error_description := error_description r; is_v041_error := v;
     other_orders := other_orders r;
     other_orders_not_canceled := other_orders_not_canceled r;
     canceled_order_has_credit_memo := canceled_order_has_credit_memo r;
     can_resend := can_resend r; validation_reason := validation_reason r;
     validation_step := validation_step r; error := error r |}.

Definition set_other_orders (v : list SiblingOrder) (r : OrderResult) : OrderResult :=
  {| order_id := order_id r; article_id := article_id r;
     order_status := order_status r; payment_method := payment_method r;
     total_charged := total_charged r; journal_name := journal_name r;
     revenue_model := revenue_model r; article_doi := article_doi r;
     has_error := has_error r; error_code := error_code r;
     error_description := error_description r;
     is_v041_error := is_v041_error r; other_orders := v;
     other_orders_not_canceled := other_orders_not_canceled r;
     canceled_order_has_credit_memo := canceled_order_has_credit_memo r;
     can_resend := can_resend r; validation_reason := validation_reason r;
     validation_step := validation_step r; error := error r |}.

Definition set_other_orders_not_canceled (v : nat) (r : OrderResult) : OrderResult :=
  {| order_id := order_id r; article_id := article_id r;
     order_status := order_status r; payment_method := payment_method r;
     total_charged := total_charged r; journal_name := journal_name r;
     revenue_model := revenue_model r; article_doi := article_doi r;
     has_error := has_error r; error_code := error_code r;
     error_description := error_description r;
     is_v041_error := is_v041_error r; other_orders := other_orders r;
     other_orders_not_canceled := v;
     canceled_order_has_credit_memo := canceled_order_has_credit_memo r;
     can_resend := can_resend r; validation_reason := validation_reason r;
     validation_step := validation_step r; error := error r |}.

Definition set_canceled_order_has_credit_memo (v : option bool) (r : OrderResult) : OrderResult :=
  {| order_id := order_id r; article_id := article_id r;
     order_status := order_status r; payment_method := payment_method r;
     total_charged := total_charged r; journal_name := journal_name r;
     revenue_model := revenue_model r; article_doi := article_doi r;
     has_error := has_error r; error_code := error_code r;
     error_description := error_description r;
     is_v041_error := is_v041_error r; other_orders := other_orders r;
     other_orders_not_canceled := other_orders_not_canceled r;
     canceled_order_has_credit_memo := v; can_resend := can_resend r;
     validation_reason := validation_reason r;
     validation_step := validation_step r; error := error r |}.

Definition set_can_resend (v : bool) (r : OrderResult) : OrderResult :=
  {| order_id := order_id r; article_id := article_id r;
     order_status := order_status r; payment_method := payment_method r;
     total_charged := total_charged r; journal_name := journal_name r;
     revenue_model := revenue_model r; article_doi := article_doi r;
     has_error := has_error r; error_code := error_code r;
     error_description := error_description r;
     is_v041_error := is_v041_error r; other_orders := other_orders r;
     other_orders_not_canceled := other_orders_not_canceled r;
     canceled_order_has_credit_memo := canceled_order_has_credit_memo r;
     can_resend := v; validation_reason := validation_reason r;
     validation_step := validation_step r; error := error r |}.

Definition set_validation_reason (v : string) (r : OrderResult) : OrderResult :=
  {| order_id := order_id r; article_id := article_id r;
     order_status := order_status r; payment_method := payment_method r;
     total_charged := total_charged r; journal_name := journal_name r;
     revenue_model := revenue_model r; article_doi := article_doi r;
     has_error := has_error r; error_code := error_code r;
     error_description := error_description r;
     is_v041_error := is_v041_error r; other_orders := other_orders r;
     other_orders_not_canceled := other_orders_not_canceled r;
     canceled_order_has_credit_memo := canceled_order_has_credit_memo r;
     can_resend := can_resend r; validation_reason := v;
     validation_step := validation_step r; error := error r |}.

Definition set_validation_step (v : string) (r : OrderResult) : OrderResult :=
  {| order_id := order_id r; article_id := article_id r;
     order_status := order_status r; payment_method := payment_method r;
     total_charged := total_charged r; journal_name := journal_name r;
     revenue_model := revenue_model r; article_doi := article_doi r;
     has_error := has_error r; error_code := error_code r;
     error_description := error_description r;
     is_v041_error := is_v041_error r; other_orders := other_orders r;
     other_orders_not_canceled := other_orders_not_canceled r;
     canceled_order_has_credit_memo := canceled_order_has_credit_memo r;
     can_resend := can_resend r; validation_reason := validation_reason r;
     validation_step := v; error := error r |}.

Definition set_error (v : option string) (r : OrderResult) : OrderResult :=
  {| order_id := order_id r; article_id := article_id r;
     order_status := order_status r; payment_method := payment_method r;
     total_charged := total_charged r; journal_name := journal_name r;
     revenue_model := revenue_model r; article_doi := article_doi r;
     has_error := has_error r; error_code := error_code r;
     error_description := error_description r;
     is_v041_error := is_v041_error r; other_orders := other_orders r;
     other_orders_not_canceled := other_orders_not_canceled r;
     canceled_order_has_credit_memo := canceled_order_has_credit_memo r;
     can_resend := can_resend r; validation_reason := validation_reason r;
     validation_step := validation_step r; error := v |}.

(** ** URL configuration *)

Definition ASAT_ORDER_URL (order_id : string) : string :=
  "https://wpp-admin-wprod.aws.wiley.com/services/wpp-admin-app/orderManagement/orders/"
  ++ order_id.

Definition PRODUCT_DETAILS_URL (article_id : string) : string :=
  "https://wpp-admin-wprod.aws.wiley.com/services/wpp-admin-app/productDetails/v1/article/"
  ++ article_id.

Definition MULTIPLE_ORDERS_URL : string :=
  "https://wpp-admin-wprod.aws.wiley.com/services/wpp-admin-app/orderManagement/orders".

(** ** The gateway *)

(** What [resp.json()] yields inside the [try] of the three getters when
    the request succeeded with [resp.ok]. *)
Definition ok_json {T : Type} (resp : response T) : option T :=
  match resp with
  | Response true json => json
  | _ => None
  end.

Definition get_order_details (session : Session) (order_id : string)
  : M (option OrderData) :=
  let url := ASAT_ORDER_URL order_id in
  requested url ;;
  mret (ok_json (order_endpoint session url)).

Definition get_product_details (session : Session) (article_id : string)
  : M (option ProductData) :=
  let url := PRODUCT_DETAILS_URL article_id in
  requested url ;;
  mret (ok_json (product_endpoint session url)).

(** Line 201: the id that is sent as [dhId]. *)
Definition clean_article_id (article_id : string) : string :=
  if PyStr.truthy article_id then PyStr.replace "PD" "" article_id
  else article_id.

Definition get_multiple_orders (session : Session) (article_id : string)
  : M (list SiblingOrder) :=
  let url := MULTIPLE_ORDERS_URL ++ "?dhId=" ++ clean_article_id article_id in
  requested url ;;
  mret (match ok_json (orders_endpoint session url) with
        | Some data =>
            match payload data with
            | Some orders => orders
            | None => []
            end
        | None => []
        end).

(** ** History inspection *)

(** Lines 248-256: the code extracted from the description of the first
    error event. *)
Definition extract_error_code (event_desc : string) : option string :=
  if PyStr.contains "V041" event_desc then Some "V041"
  else if PyStr.contains ":" event_desc then
    let parts := PyStr.split ":" event_desc in
    let potential_code := PyStr.strip (hd "" parts) in
    if Nat.ltb (PyStr.len potential_code) 10 then Some potential_code
    else None
  else None.

Definition is_error_event (event : Event) : bool :=
  PyStr.contains "Error" (eventType event)
  || PyStr.contains "error" (PyStr.lower (eventType event)).

Fixpoint check_error_in_history (order_history : list Event)
  : bool * option string * option string :=
  match order_history with
  | [] => (false, None, None)
  | event :: rest =>
      if is_error_event event
      then (true, extract_error_code (eventDescription event),
            Some (eventDescription event))
      else check_error_in_history rest
  end.

Fixpoint check_credit_memo_in_history (order_history : list Event) : bool :=
  match order_history with
  | [] => false
  | event :: rest =>
      if PyStr.contains "Credit memo created" (eventType event) then true
      else check_credit_memo_in_history rest
  end.

(** ** Revenue-model rules *)

Definition validate_revenue_model_rules
  (revenue_model payment_method : string) (total_charged : num)
  : bool * string :=
  if String.eqb revenue_model "OO" then
    if num_eq0 total_charged then (false, "OO with totalChargedAmount = 0")
    else (true, "OO with totalChargedAmount > 0 ($" ++ num_str total_charged ++ ")")
  else if String.eqb revenue_model "OA" then
    if String.eqb payment_method "Invoice" then
      if num_eq0 total_charged
      then (false, "OA + Invoice with totalChargedAmount = 0")
      else (true, "OA + Invoice with totalChargedAmount > 0 ($"
                  ++ num_str total_charged ++ ")")
    else (true, "OA + " ++ payment_method ++ " (regardless of totalChargedAmount)")
  else (true, "Revenue Model " ++ revenue_model).

(** ** The decision hierarchy: [validate_order]

    The function returns early at every terminal decision.  Each guard
    [if not x: ...; return result] reads here
    [match when truthy x with None => ... | Some x => (the rest) end]. *)

(** [Some a] when [x] is [a] and [a] is truthy. *)
Definition when {A : Type} (truthy : A -> bool) (x : option A) : option A :=
  match x with
  | Some a => if truthy a then Some a else None
  | None => None
  end.

(** [x or d] *)
Definition or_str (x : option string) (d : string) : string :=
  default d (when PyStr.truthy x).

Definition or_num (x : option num) (d : num) : num :=
  default d (when (fun c => negb (num_eq0 c)) x).

(** Lines 505-557, rule 3: revenue-model validation. *)
Definition validate_revenue_model (session : Session) (result : OrderResult)
  : M OrderResult :=
  match when PyStr.truthy (article_id result) with
  | None =>
      let result := set_can_resend false result in
      let result := set_validation_reason
        "article_id not available para validação de revenue model" result in
      mret result
  | Some article_id' =>
  product_data ← get_product_details session article_id' ;
  match when truthy_product product_data with
  | None =>
      let result := set_can_resend false result in
      let result := set_validation_reason
        "Could not query productDetails to get revenue model" result in
      mret result
  | Some product_data' =>
  let result :=
    match productJournal product_data' with
    | Some j => set_revenue_model (revenueModel j) result
    | None => result
    end in
  match when PyStr.truthy (revenue_model result) with
  | None =>
      let result := set_can_resend false result in
      let result := set_validation_reason
        "Revenue model not found em productDetails" result in
      mret result
  | Some revenue_model' =>
  let '(can_resend', reason) :=
    validate_revenue_model_rules
      revenue_model'
      (or_str (payment_method result) "")
      (or_num (total_charged result) num_int0) in
  let result := set_can_resend can_resend' result in
  if can_resend' then
    if is_v041_error result then
      mret (set_validation_reason
              ("✅ CAN RESEND: V041 ignored + " ++ reason) result)
    else
      mret (set_validation_reason ("✅ CAN RESEND: " ++ reason) result)
  else
    mret (set_validation_reason ("❌ BLOCKED: " ++ reason) result)
  end end end.

(** Lines 423-427 and 442-446: the two list comprehensions over the
    sibling orders. *)
Definition not_canceled (order_id : string) (other_orders : list SiblingOrder)
  : list SiblingOrder :=
  List.filter
    (fun o =>
       negb (String.eqb (py_str (orderUniqueId o)) order_id)
       && (negb (eq_str (siblingStatus o) "OrderCanceledInAMP")
           || negb (default false (inCancelledState o))))
    other_orders.

Definition canceled_orders (order_id : string) (other_orders : list SiblingOrder)
  : list SiblingOrder :=
  List.filter
    (fun o =>
       negb (String.eqb (py_str (orderUniqueId o)) order_id)
       && eq_str (siblingStatus o) "OrderCanceledInAMP")
    other_orders.

(** Lines 460-477: the loop over the canceled orders, which breaks at the
    first one whose history has a credit memo.  The value is
    [has_credit_memo]. *)
Fixpoint credit_memo_loop (session : Session) (canceled_orders : list SiblingOrder)
  : M bool :=
  match canceled_orders with
  | [] => mret false
  | canceled :: rest =>
      let canceled_id := orderUniqueId canceled in
      if truthy_scalar canceled_id then
        canceled_data ← get_order_details session (py_str canceled_id) ;
        match when truthy_order canceled_data ≫= orderDetails with
        | Some canceled_details =>
            let canceled_history := orderHistory canceled_details in
            if check_credit_memo_in_history canceled_history
            then mret true
            else credit_memo_loop session rest
        | None => credit_memo_loop session rest
        end
      else credit_memo_loop session rest
  end.

(** Lines 395-491, rule 2.1: the error is V041. *)
Definition validate_v041 (session : Session) (order_id : string)
  (result : OrderResult) : M OrderResult :=
  let result := set_is_v041_error true result in
  let result := set_validation_step "2. V041 error detection" result in
  match when PyStr.truthy (article_id result) with
  | None =>
      let result := set_validation_reason
        "Erro V041 detected but article_id not available" result in
      let result := set_can_resend false result in
      mret result
  | Some article_id' =>
  other_orders' ← get_multiple_orders session article_id' ;
  let result := set_other_orders other_orders' result in
  match other_orders' with
  | [] =>
      let result := set_validation_reason
        "V041 error: could not verify other orders for the article" result in
      let result := set_can_resend false result in
      mret result
  | _ :: _ =>
  let not_canceled' := not_canceled order_id other_orders' in
  let result := set_other_orders_not_canceled (length not_canceled') result in
  if Nat.ltb 0 (length not_canceled') then
    let result := set_can_resend false result in
    let result := set_validation_reason
      ("V041 error: " ++ PyStr.of_nat (length not_canceled')
       ++ " non-canceled order(s) detected - requires VIAX review") result in
    let result := set_validation_step "2.1. V041 - Multiple active orders" result in
    mret result
  else
  let canceled_orders' := canceled_orders order_id other_orders' in
  match canceled_orders' with
  | [] =>
      let result := set_can_resend false result in
      let result := set_validation_reason
        "V041 error: no canceled order found" result in
      let result := set_validation_step "2.1. V041 - No canceled orders" result in
      mret result
  | _ :: _ =>
  has_credit_memo ← credit_memo_loop session canceled_orders' ;
  let result := set_canceled_order_has_credit_memo (Some has_credit_memo) result in
  if negb has_credit_memo then
    let result := set_can_resend false result in
    let result := set_validation_reason
      "V041 error: canceled order without credit memo - requires VIAX review"
      result in
    let result := set_validation_step "2.1. V041 - No credit memo" result in
    mret result
  else
  let result := set_validation_step
    "2.1. V041 - Ignored, validating revenue model" result in
  validate_revenue_model session result
  end end end.

Definition validate_order (session : Session) (order_id : string)
  : M OrderResult :=
  let result := new_OrderResult order_id in
  order_data ← get_order_details session order_id ;
  match when truthy_order order_data with
  | None =>
      let result := set_error (Some "Could not query the order") result in
      let result := set_validation_reason "Error querying ASAT" result in
      let result := set_validation_step "1. Order query" result in
      mret result
  | Some order_data' =>
  match orderDetails order_data' with
  | None =>
      let result := set_validation_reason
        "orderDetails not found na resposta" result in
      let result := set_validation_step "1. Order query" result in
      mret result
  | Some order_details =>
  let result := set_order_status (orderStatus order_details) result in
  let order_history := orderHistory order_details in
  let result :=
    match article order_data' with
    | Some article' =>
        let result := set_article_id (id article') result in
        set_article_doi (doi article') result
    | None => result
    end in
  let result :=
    match journal order_data' with
    | Some journal' => set_journal_name (name journal') result
    | None => result
    end in
  let result :=
    match paymentDetails order_data' with
    | Some payment =>
        let result := set_payment_method (paymentMethod payment) result in
        set_total_charged
          (Some (default num_int0 (totalChargedAmount payment))) result
    | None => result
    end in
  if eq_str (order_status result) "OrderCanceledInAMP" then
    let result := set_can_resend false result in
    let result := set_validation_reason
      "Order canceled (OrderCanceledInAMP)" result in
    let result := set_validation_step "1. Canceled status check" result in
    mret result
  else
  let '(has_error', error_code', error_desc) :=
    check_error_in_history order_history in
  let result := set_has_error has_error' result in
  let result := set_error_code error_code' result in
  let result := set_error_description error_desc result in
  if has_error' then
    if eq_str error_code' "V041" then
      validate_v041 session order_id result
    else
      let result := set_can_resend false result in
      let result := set_validation_reason
        ("Error detected: " ++ or_str error_code' "DESCONHECIDO" ++ " - "
         ++ default "None" error_desc) result in
      let result := set_validation_step "2.2. Other error detected" result in
      mret result
  else
    let result := set_validation_step
      "3. No errors, validating revenue model" result in
    validate_revenue_model session result
  end end.

(** ** The summary of [main] (lines 877-898) *)

Definition truthy_error (r : OrderResult) : bool := truthy_str (error r).

Definition approved (all_results : list OrderResult) : nat :=
  length (List.filter can_resend all_results).

Definition blocked (all_results : list OrderResult) : nat :=
  length (List.filter (fun r => negb (can_resend r) && negb (truthy_error r))
            all_results).

Definition errors (all_results : list OrderResult) : nat :=
  length (List.filter truthy_error all_results).

(** The frequency table of blocking reasons. *)
Definition bloqueio_counts (all_results : list OrderResult) : gmap string nat :=
  fold_left
    (fun counts r =>
       if negb (can_resend r) && negb (truthy_error r) then
         let reason := validation_reason r in
         <[reason := default 0 (counts !! reason) + 1]> counts
       else counts)
    all_results ∅.

End Validator.

Arguments PaymentDetails num : clear implicits.
Arguments OrderData num : clear implicits.
Arguments Session num : clear implicits.
Arguments OrderResult num : clear implicits.

(** ** Vocabulary of the specification *)

Section Vocabulary.

Context {num : Type} `{PyNumber num}.

Definition canceled_status : string := "OrderCanceledInAMP".

(** The order query answered with a non-empty body that has the
    order-details section. *)
Definition fetched (session : Session num) (order_id : string)
  (order_data : OrderData num) (order_details : OrderDetails) : Prop :=
  when truthy_order (ok_json (order_endpoint session (ASAT_ORDER_URL order_id)))
  = Some order_data
  /\ orderDetails order_data = Some order_details.

(** A V041 order: it is fetched, it is not canceled, the first error event
    of its history yields the code V041 and it has an article id. *)
Definition v041_order (session : Session num) (order_id : string)
  (order_data : OrderData num) (order_details : OrderDetails)
  (article_id' : string) : Prop :=
  fetched session order_id order_data order_details
  /\ eq_str (orderStatus order_details) canceled_status = false
  /\ fst (check_error_in_history (orderHistory order_details))
     = (true, Some "V041")
  /\ when PyStr.truthy (article order_data ≫= id) = Some article_id'.

(** The sibling-order set of an article, as the gateway returns it. *)
Definition siblings (session : Session num) (article_id' : string)
  : list SiblingOrder :=
  value (get_multiple_orders session article_id').

Definition siblings_url (article_id' : string) : string :=
  MULTIPLE_ORDERS_URL ++ "?dhId=" ++ clean_article_id article_id'.

(** An event history has a credit memo. *)
Definition has_credit_memo_event (history : list Event) : bool :=
  existsb (fun event => PyStr.contains "Credit memo created" (eventType event))
    history.

(** The history of a sibling as the credit-memo scan obtains it: nothing
    when the sibling has no usable id, when its own order query fails or
    when the answer has no order-details section. *)
Definition sibling_history (session : Session num) (o : SiblingOrder)
  : option (list Event) :=
  if truthy_scalar (orderUniqueId o) then
    orderHistory <$>
      (when truthy_order
         (ok_json (order_endpoint session
                     (ASAT_ORDER_URL (py_str (orderUniqueId o)))))
       ≫= orderDetails)
  else None.

Definition skipped (session : Session num) (o : SiblingOrder) : bool :=
  negb (bool_decide (is_Some (sibling_history session o))).

Definition has_credit_memo (session : Session num) (o : SiblingOrder) : bool :=
  match sibling_history session o with
  | Some history => has_credit_memo_event history
  | None => false
  end.

(** The order queries the scan makes for a list of siblings it goes
    through entirely. *)
Definition history_queries (l : list SiblingOrder) : list string :=
  map (fun o => ASAT_ORDER_URL (py_str (orderUniqueId o)))
    (List.filter (fun o => truthy_scalar (orderUniqueId o)) l).

(** The text of [s] before the first [sep], all of [s] if there is none. *)
Fixpoint text_before (sep : ascii) (s : string) : string :=
  match s with
  | EmptyString => EmptyString
  | String c s' =>
      if Ascii.eqb c sep then EmptyString else String c (text_before sep s')
  end.

(** The code-extraction rule in the words of the specification: the text
    before the first colon, as it stands, when it is under 10 characters. *)
Definition spec_error_code (event_desc : string) : option string :=
  if PyStr.contains "V041" event_desc then Some "V041"
  else if PyStr.contains ":" event_desc then
    let code := text_before ":" event_desc in
    if Nat.ltb (PyStr.len code) 10 then Some code else None
  else None.

Fixpoint spec_check_error_in_history (history : list Event)
  : bool * option string * option string :=
  match history with
  | [] => (false, None, None)
  | event :: rest =>
      if is_error_event event
      then (true, spec_error_code (eventDescription event),
            Some (eventDescription event))
      else spec_check_error_in_history rest
  end.

(** The id sent to the sibling lookup in the words of the specification:
    a leading "PD" is stripped, the rest is kept. *)
Definition spec_strip_leading_PD (article_id' : string) : string :=
  default article_id' (PyStr.drop_prefix "PD" article_id').

(** The reason of a denial for an error other than V041, in the words of
    the specification: the raw code, "unknown" when there is none, and
    the raw description are part of it. *)
Definition other_error_reason_as_specified (session : Session num)
  (order_id : string) : Prop :=
  ∀ order_data order_details code desc,
    fetched session order_id order_data order_details →
    eq_str (orderStatus order_details) canceled_status = false →
    check_error_in_history (orderHistory order_details)
    = (true, code, Some desc) →
    code ≠ Some "V041" →
    let r := validate_order session order_id in
    can_resend (value r) = false
    ∧ PyStr.contains (default "unknown" code) (validation_reason (value r)) = true
    ∧ PyStr.contains desc (validation_reason (value r)) = true
    ∧ requests r = [ASAT_ORDER_URL order_id].

(** The waiver tag in the words of the specification: whenever V041 was
    waived and the rule set was evaluated, the final reason names V041,
    whatever the verdict. *)
Definition waiver_tagged_as_specified (session : Session num)
  (order_id : string) : Prop :=
  let r := value (validate_order session order_id) in
  is_v041_error r = true →
  truthy_str (revenue_model r) = true →
  PyStr.contains "V041" (validation_reason r) = true.

End Vocabulary.

(** ** A sample snapshot of the gateway *)

Module Sample.

Definition event (type description : string) : Event :=
  {| eventType := type; eventDescription := description |}.

Definition details (status : string) (history : list Event) : OrderDetails :=
  {| orderStatus := Some status; orderHistory := history |}.

Definition order (order_details : OrderDetails) (article_id' : string)
  (method : string) (charged : Z) : OrderData Z :=
  {| orderDetails := Some order_details;
     article := Some {| id := Some article_id'; doi := None |};
     journal := Some {| name := Some "Journal of Samples" |};
     paymentDetails :=
       Some {| paymentMethod := Some method;
               totalChargedAmount := Some charged |};
     other_keys := [] |}.

(** A body that is not an order: non-empty, without order details. *)
Definition not_an_order : OrderData Z :=
  {| orderDetails := None; article := None; journal := None;
     paymentDetails := None; other_keys := ["message"] |}.

Definition sibling (i : scalar) (status : string) (flag : option bool)
  : SiblingOrder :=
  {| orderUniqueId := Some i; siblingStatus := Some status;
     inCancelledState := flag |}.

Definition product (model : string) : ProductData :=
  {| productJournal := Some {| revenueModel := Some model |};
     product_other_keys := [] |}.

(** 1001: V041, with an active sibling (1003) besides a canceled one that
    has a credit memo (1002). *)
Definition details_1001 : OrderDetails :=
  details "Sent" [event "Created" ""; event "Order Error" "V041: duplicate"].
Definition order_1001 : OrderData Z := order details_1001 "PD501" "CreditCard" 120.

(** 1002: canceled, with an error event and a credit memo in its history. *)
Definition details_1002 : OrderDetails :=
  details "OrderCanceledInAMP"
    [event "Validation error" "E77: rejected"; event "Credit memo created" ""].
Definition order_1002 : OrderData Z := order details_1002 "PD501" "Invoice" 0.

(** 2001: V041, all siblings canceled; 2002 cannot be fetched, 2003 has a
    credit memo, 2004 is listed after it. *)
Definition details_2001 : OrderDetails :=
  details "Sent" [event "Error" "V041: duplicate"].
Definition order_2001 : OrderData Z := order details_2001 "PD502" "CreditCard" 0.
Definition sibling_2002 : SiblingOrder :=
  sibling (Int 2002) "OrderCanceledInAMP" (Some true).
Definition sibling_2003 : SiblingOrder :=
  sibling (Int 2003) "OrderCanceledInAMP" (Some true).
Definition sibling_2004 : SiblingOrder :=
  sibling (Int 2004) "OrderCanceledInAMP" (Some true).

(** 3001: V041, all siblings canceled: one cannot be fetched, one has no
    id, one is answered without order details. *)
Definition details_3001 : OrderDetails :=
  details "Sent" [event "Error" "V041: duplicate"].
Definition order_3001 : OrderData Z := order details_3001 "PD503" "CreditCard" 10.

(** 4001: a first error event without a code, before a V041 event. *)
Definition details_4001 : OrderDetails :=
  details "Sent" [event "Created" ""; event "System ERROR" "boom";
                  event "Error" "V041: duplicate"].
Definition order_4001 : OrderData Z := order details_4001 "PD504" "Invoice" 50.

(** 6001: V041 waived by the credit memo of 6002; model OO, amount 0. *)
Definition details_6001 : OrderDetails :=
  details "Sent" [event "Error" "V041: duplicate"].
Definition order_6001 : OrderData Z := order details_6001 "PD506" "Invoice" 0.

Definition answer {T : Type} (table : list (string * T)) (url : string)
  : response T :=
  match List.find (fun entry => String.eqb (fst entry) url) table with
  | Some entry => Response true (Some (snd entry))
  | None => Response false None
  end.

Definition orders : list (string * OrderData Z) :=
  [ (ASAT_ORDER_URL "1001", order_1001);
    (ASAT_ORDER_URL "1002", order_1002);
    (ASAT_ORDER_URL "2001", order_2001);
    (ASAT_ORDER_URL "2003",
     order (details "OrderCanceledInAMP" [event "Credit memo created" "CM-1"])
       "PD502" "CreditCard" 0);
    (ASAT_ORDER_URL "2004",
     order (details "OrderCanceledInAMP" [event "Credit memo created" "CM-2"])
       "PD502" "CreditCard" 0);
    (ASAT_ORDER_URL "3001", order_3001);
    (ASAT_ORDER_URL "3003", not_an_order);
    (ASAT_ORDER_URL "4001", order_4001);
    (ASAT_ORDER_URL "5001", not_an_order);
    (ASAT_ORDER_URL "6001", order_6001);
    (ASAT_ORDER_URL "6002",
     order (details "OrderCanceledInAMP" [event "Credit memo created" ""])
       "PD506" "Invoice" 0) ].

Definition sibling_sets : list (string * OrdersBody) :=
  [ (MULTIPLE_ORDERS_URL ++ "?dhId=501",
     {| payload := Some [ sibling (Str "1001") "Sent" None;
                          sibling (Str "1002") "OrderCanceledInAMP" (Some true);
                          sibling (Int 1003) "Sent" None ] |});
    (MULTIPLE_ORDERS_URL ++ "?dhId=502",
     {| payload := Some [ sibling (Str "2001") "Sent" None;
                          sibling_2002; sibling_2003; sibling_2004 ] |});
    (MULTIPLE_ORDERS_URL ++ "?dhId=503",
     {| payload := Some [ sibling (Str "3001") "Sent" None;
                          sibling (Int 3002) "OrderCanceledInAMP" (Some true);
                          {| orderUniqueId := None;
                             siblingStatus := Some "OrderCanceledInAMP";
                             inCancelledState := Some true |};
                          sibling (Str "3003") "OrderCanceledInAMP" (Some true) ] |});
    (MULTIPLE_ORDERS_URL ++ "?dhId=506",
     {| payload := Some [ sibling (Str "6001") "Sent" None;
                          sibling (Str "6002") "OrderCanceledInAMP" (Some true) ] |}) ].

Definition products : list (string * ProductData) :=
  [ (PRODUCT_DETAILS_URL "PD502", product "OA");
    (PRODUCT_DETAILS_URL "PD506", product "OO") ].

Definition session : Session Z :=
  {| order_endpoint := answer orders;
     product_endpoint := answer products;
     orders_endpoint := answer sibling_sets |}.

(** The result with which order 6001 enters the revenue-model stage. *)
Definition waived_6001 : OrderResult Z :=
  set_is_v041_error true
    (set_total_charged (Some 0%Z)
       (set_payment_method (Some "Invoice")
          (set_article_id (Some "PD506") (new_OrderResult "6001")))).

End Sample.

(** ** The batch around [validate_order] *)

(** *** [read_csv_orders]

    The rows are taken as [csv.DictReader] yields them: [fieldnames] is the
    header ([None] for an empty file) and a row maps the header fields to
    the cells of the line (a field the line is too short for has no
    cell: [row.get] gives [None]).  Sniffing the delimiter and decoding
    the file are the reader's business. *)

Record CsvContext : Type := {
  file : string;
  row_number : nat;
  ARTICLE_PRODUCT_ID : option string;
  WORKFLOW_STATUS : option string
}.

(** Lines 630-633: the context of a row. *)
Definition csv_context (file_name : string) (fieldnames : list string)
  (row_num : nat) (row : gmap string string) : CsvContext :=
  let copied (field : string) : option string :=
    if bool_decide (field ∈ fieldnames) && truthy_str (row !! field)
    then row !! field else None in
  {| file := file_name; row_number := row_num;
     ARTICLE_PRODUCT_ID := copied "ARTICLE_PRODUCT_ID";
     WORKFLOW_STATUS := copied "WORKFLOW_STATUS" |}.

(** Lines 625-635: the loop [for row_num, row in enumerate(reader, start)]. *)
Fixpoint read_rows (file_name : string) (fieldnames : list string)
  (row_num : nat) (rows : list (gmap string string))
  : list (string * CsvContext) :=
  match rows with
  | [] => []
  | row :: rest =>
      let order_id := PyStr.strip (or_str (row !! "ORDER_UNIQUE_ID") "") in
      if negb (PyStr.truthy order_id)
      then read_rows file_name fieldnames (S row_num) rest
      else (order_id, csv_context file_name fieldnames row_num row)
           :: read_rows file_name fieldnames (S row_num) rest
  end.

(** The pairs the generator yields, or the message of the [ValueError] it
    raises. *)
Definition read_csv_orders (file_name : string)
  (fieldnames : option (list string)) (rows : list (gmap string string))
  : string + list (string * CsvContext) :=
  match fieldnames with
  | Some (field :: fields) =>
      if bool_decide ("ORDER_UNIQUE_ID" ∈ field :: fields)
      then inr (read_rows file_name (field :: fields) 2 rows)
      else inl "Field ORDER_UNIQUE_ID missing"
  | Some [] | None => inl "Field ORDER_UNIQUE_ID missing"
  end.

(** *** [display_resendable_orders], [ask_user_resend] and their use in [main]

    Printing is not modelled.  The keyboard is the list of the lines the
    user types, one per call of [input]; past the last line [input] raises
    [EOFError].  An interrupt from the keyboard is not modelled. *)

Section Batch.

Context {num : Type} `{PyNumber num}.

(** Line 640: the value returned. *)
Definition display_resendable_orders (results : list (OrderResult num))
  : list (OrderResult num) :=
  List.filter can_resend results.

(** [input(...).upper() in ["Y", "YES", "N", "NO"]] (lines 700-701, 713-714) *)
Definition confirmed (line : string) : bool :=
  bool_decide (PyStr.upper line ∈ ["Y"; "YES"; "N"; "NO"]).

(** [int(s)]: [None] when it raises [ValueError]. *)
Context (py_int : string -> option Z).

(** Line 708 *)
Definition parse_indices (numbers : string) : option (list Z) :=
  mapM (λ n, py_int (PyStr.strip n)) (PyStr.split "," numbers).

(** Line 709 *)
Definition select (approved : list (OrderResult num)) (indices : list Z)
  : list (OrderResult num) :=
  omap (λ i : Z,
          if ((1 <=? i) && (i <=? Z.of_nat (length approved)))%Z
          then approved !! Z.to_nat (i - 1) else None)
    indices.

(** Lines 695-725: the loop [while True].  With the keyboard exhausted
    [input] raises [EOFError]: at the prompts of lines 697, 700 and 705 the
    outer handler returns the empty list; at the prompt of line 713 the bare
    [except] of line 715 goes on with the loop, whose next [input] raises
    again. *)
Fixpoint ask_loop (approved : list (OrderResult num)) (keyboard : list string)
  : list (OrderResult num) :=
  match keyboard with
  | [] => []
  | line :: keyboard' =>
      let choice := PyStr.strip line in
      if String.eqb choice "1" then
        match keyboard' with
        | [] => []
        | confirm :: _ => if confirmed confirm then approved else []
        end
      else if String.eqb choice "2" then
        match keyboard' with
        | [] => []
        | line' :: keyboard'' =>
            let numbers := PyStr.strip line' in
            match parse_indices numbers with
            | None => ask_loop approved keyboard''
            | Some indices =>
                let selected := select approved indices in
                match selected with
                | [] => ask_loop approved keyboard''
                | _ :: _ =>
                    match keyboard'' with
                    | [] => []
                    | confirm :: _ =>
                        if confirmed confirm then selected else []
                    end
                end
            end
        end
      else if String.eqb choice "3" then []
      else ask_loop approved keyboard'
  end.

Definition ask_user_resend (approved : list (OrderResult num))
  (keyboard : list string) : list (OrderResult num) :=
  match approved with
  | [] => []
  | _ :: _ => ask_loop approved keyboard
  end.

(** Lines 904-912 of [main]: the orders handed to [resend_orders_batch]
    ([None] when it is not called). *)
Definition orders_to_resend (no_interactive : bool)
  (all_results : list (OrderResult num)) (keyboard : list string)
  : option (list (OrderResult num)) :=
  let resendable := display_resendable_orders all_results in
  match resendable with
  | _ :: _ =>
      if negb no_interactive then
        let to_resend := ask_user_resend resendable keyboard in
        match to_resend with
        | _ :: _ => Some to_resend
        | [] => None
        end
      else None
  | [] => None
  end.

(** *** More vocabulary *)

(** What [validate_order] has gathered on an order, the verdict apart. *)
Definition gathered_facts (r : OrderResult num) :=
  (order_id r, article_id r, order_status r, payment_method r,
   total_charged r, journal_name r, article_doi r, has_error r,
   error_code r, error_description r, is_v041_error r, other_orders r,
   other_orders_not_canceled r, canceled_order_has_credit_memo r, error r).

(** The steps [validate_order] records. *)
Definition validation_steps : list string :=
  [ "1. Order query"; "1. Canceled status check"; "2. V041 error detection";
    "2.1. V041 - Multiple active orders"; "2.1. V041 - No canceled orders";
    "2.1. V041 - No credit memo";
    "2.1. V041 - Ignored, validating revenue model";
    "2.2. Other error detected"; "3. No errors, validating revenue model" ].

(** An order counted as blocked by the summary of [main]. *)
Definition is_blocked (r : OrderResult num) : bool :=
  negb (can_resend r) && negb (truthy_error r).

End Batch.

(** *** A sample file and a sample keyboard *)

Module SampleBatch.

Definition header : list string :=
  ["ORDER_UNIQUE_ID"; "ARTICLE_PRODUCT_ID"; "WORKFLOW_STATUS"].

Definition row (order_id' article workflow : string) : gmap string string :=
  <["ORDER_UNIQUE_ID" := order_id']>
    (<["ARTICLE_PRODUCT_ID" := article]>
       (<["WORKFLOW_STATUS" := workflow]> ∅)).

(** Three lines; the second has a blank id, the third is too short for
    the last two columns. *)
Definition rows : list (gmap string string) :=
  [ row " 2001 " "PD502" "FAILED"; row "   " "PD777" "FAILED";
    <["ORDER_UNIQUE_ID" := "6001"]> ∅ ].

(** [int] on plain decimal digits. *)
Definition digits_value (s : string) : option Z :=
  match s with
  | EmptyString => None
  | String _ _ =>
      (fix go (acc : Z) (s : string) : option Z :=
         match s with
         | EmptyString => Some acc
         | String c s' =>
             let n := N_of_ascii c in
             if ((48 <=? n) && (n <=? 57))%N
             then go (10 * acc + Z.of_N (n - 48))%Z s'
             else None
         end) 0%Z s
  end.

(** A second snapshot: order 7001 has the V041 error and an article whose
    sibling lookup fails; order 7002 has no error event. *)
Definition details_7001 : OrderDetails :=
  Sample.details "Sent" [Sample.event "Error" "V041: duplicate"].
Definition order_7001 : OrderData Z :=
  Sample.order details_7001 "PD507" "CreditCard" 80.
Definition details_7002 : OrderDetails :=
  Sample.details "Sent" [Sample.event "Created" ""; Sample.event "Sent" ""].
Definition order_7002 : OrderData Z :=
  Sample.order details_7002 "PD502" "Invoice" 0.

Definition session : Session Z :=
  {| order_endpoint :=
       Sample.answer [ (ASAT_ORDER_URL "7001", order_7001);
                       (ASAT_ORDER_URL "7002", order_7002) ];
     product_endpoint := Sample.answer Sample.products;
     orders_endpoint := λ _, ConnectionError |}.

(** The results of validating the orders of the sample snapshot. *)
Definition all_results : list (OrderResult Z) :=
  map (λ order_id', value (validate_order Sample.session order_id'))
    ["1001"; "1002"; "2001"; "3001"; "4001"; "5001"; "6001"; "9999"].

End SampleBatch.

(** ** The string model on small inputs *)

Example contains_example : PyStr.contains "V041" "Error V041: duplicate" = true.
Proof. reflexivity. Qed.

Example split_example : PyStr.split ":" " E1: a:b" = [" E1"; " a"; "b"].
Proof. reflexivity. Qed.

Example strip_example : PyStr.strip "  E 1  " = "E 1".
Proof. reflexivity. Qed.

Example replace_example : PyStr.replace "PD" "" "PD12PPDD3" = "12PD3".
Proof. reflexivity. Qed.

Example replace_empty_example : PyStr.replace "" "-" "ab" = "-a-b-".
Proof. reflexivity. Qed.

Example len_example : PyStr.len "✅ ok" = 4.
Proof. reflexivity. Qed.

Example lower_example : PyStr.lower "Order ERROR" = "order error".
Proof. reflexivity. Qed.

Example py_str_example :
  py_str (Some (Int 2003)) = "2003" ∧ py_str None = "None".
Proof. split; reflexivity. Qed.

(** ** Properties *)

Section Properties.

Context {num : Type} `{PyNumber num}.

Implicit Types (session : Session num) (order_id : string).
Implicit Types (result : OrderResult num) (o : SiblingOrder).

(** *** History inspection *)

Lemma check_credit_memo_in_history_existsb (history : list Event) :
  check_credit_memo_in_history history = has_credit_memo_event history.
Proof.
  induction history as [|event rest IH]; simpl; [reflexivity|].
  destruct (PyStr.contains _ (eventType event)); simpl; auto.
Qed.

Lemma split_hd (sep : ascii) (s : string) :
  hd "" (PyStr.split sep s) = text_before sep s.
Proof.
  induction s as [|c s IH]; simpl; [reflexivity|].
  destruct (Ascii.eqb c sep); simpl; [reflexivity|].
  destruct (PyStr.split sep s) as [|part parts]; simpl in *; congruence.
Qed.

Lemma check_error_in_history_no_match (history : list Event) :
  forallb (fun event => negb (is_error_event event)) history = true ->
  check_error_in_history history = (false, None, None).
Proof.
  induction history as [|event rest IH]; simpl; [reflexivity|].
  destruct (is_error_event event); simpl; [discriminate | exact IH].
Qed.

Lemma check_error_in_history_first_match (before after : list Event)
  (event : Event) :
  forallb (fun e => negb (is_error_event e)) before = true ->
  is_error_event event = true ->
  check_error_in_history (before ++ event :: after)%list
  = (true, extract_error_code (eventDescription event),
     Some (eventDescription event)).
Proof.
  intros Hbefore Hevent.
  induction before as [|e before IH]; simpl in *.
  - now rewrite Hevent.
  - destruct (is_error_event e); simpl in *; [discriminate | auto].
Qed.

(** *** The credit-memo scan *)

Lemma get_order_details_value session order_id :
  value (get_order_details session order_id)
  = ok_json (order_endpoint session (ASAT_ORDER_URL order_id)).
Proof. reflexivity. Qed.

Lemma get_order_details_requests session order_id :
  requests (get_order_details session order_id) = [ASAT_ORDER_URL order_id].
Proof. reflexivity. Qed.

(** One turn of the loop, by cases on what the scan learns of the sibling. *)
Lemma credit_memo_loop_cons session o rest :
  credit_memo_loop session (o :: rest)
  = if has_credit_memo session o
    then Traced true (history_queries [o])
    else Traced (value (credit_memo_loop session rest))
           (history_queries [o] ++ requests (credit_memo_loop session rest))%list.
Proof.
  unfold has_credit_memo, sibling_history, history_queries.
  cbn [credit_memo_loop List.filter map].
  destruct (truthy_scalar (orderUniqueId o)); cbn.
  - destruct (when truthy_order _ ≫= orderDetails) as [details|]; cbn.
    + rewrite check_credit_memo_in_history_existsb.
      destruct (has_credit_memo_event _); reflexivity.
    + reflexivity.
  - now destruct (credit_memo_loop session rest).
Qed.

Lemma history_queries_app (l1 l2 : list SiblingOrder) :
  history_queries (l1 ++ l2) = (history_queries l1 ++ history_queries l2)%list.
Proof.
  unfold history_queries. now rewrite List.filter_app, List.map_app.
Qed.

Lemma credit_memo_loop_value session (l : list SiblingOrder) :
  value (credit_memo_loop session l) = existsb (has_credit_memo session) l.
Proof.
  induction l as [|o rest IH]; [reflexivity|].
  rewrite credit_memo_loop_cons. simpl.
  destruct (has_credit_memo session o); simpl; auto.
Qed.

Lemma credit_memo_loop_none session (l : list SiblingOrder) :
  existsb (has_credit_memo session) l = false ->
  credit_memo_loop session l = Traced false (history_queries l).
Proof.
  induction l as [|o rest IH]; [reflexivity|].
  intros Hl. simpl in Hl. apply orb_false_iff in Hl as [Ho Hrest].
  rewrite credit_memo_loop_cons, Ho, (IH Hrest). simpl.
  change (o :: rest) with ([o] ++ rest)%list.
  now rewrite history_queries_app.
Qed.

Lemma credit_memo_loop_first session (before after : list SiblingOrder) o :
  existsb (has_credit_memo session) before = false ->
  has_credit_memo session o = true ->
  credit_memo_loop session (before ++ o :: after)%list
  = Traced true (history_queries (before ++ [o])%list).
Proof.
  intros Hbefore Ho.
  induction before as [|b before IH].
  - cbn [app]. now rewrite credit_memo_loop_cons, Ho.
  - simpl in Hbefore. apply orb_false_iff in Hbefore as [Hb Hbefore].
    rewrite <- app_comm_cons, credit_memo_loop_cons, Hb, (IH Hbefore). simpl.
    change (b :: before ++ [o])%list with ([b] ++ (before ++ [o]))%list.
    now rewrite (history_queries_app [b]).
Qed.

Lemma skipped_no_credit_memo session o :
  skipped session o = true -> has_credit_memo session o = false.
Proof.
  unfold skipped, has_credit_memo.
  destruct (sibling_history session o); [discriminate | reflexivity].
Qed.

(** *** The stages of [validate_order] *)

Lemma get_multiple_orders_requests session (article_id' : string) :
  requests (get_multiple_orders session article_id') = [siblings_url article_id'].
Proof. reflexivity. Qed.

Lemma filter_nil_length {A : Type} (p : A -> bool) (l : list A) :
  List.filter p l = [] <-> Nat.ltb 0 (length (List.filter p l)) = false.
Proof.
  destruct (List.filter p l) as [|a l']; split; intros Hl;
    try reflexivity; discriminate.
Qed.

Ltac stage :=
  unfold mbind, M_bind, mret, M_ret;
  cbn -[get_multiple_orders not_canceled canceled_orders credit_memo_loop
        validate_revenue_model validate_revenue_model_rules
        get_product_details PyStr.of_nat String.append Nat.ltb].

(** Rule 2.1.1: some sibling is not canceled. *)
Lemma validate_v041_active session order_id result (article_id' : string) :
  when PyStr.truthy (article_id result) = Some article_id' ->
  not_canceled order_id (siblings session article_id') <> [] ->
  let r := validate_v041 session order_id result in
  can_resend (value r) = false
  /\ validation_reason (value r)
     = "V041 error: "
       ++ PyStr.of_nat (length (not_canceled order_id (siblings session article_id')))
       ++ " non-canceled order(s) detected - requires VIAX review"
  /\ validation_step (value r) = "2.1. V041 - Multiple active orders"
  /\ error (value r) = error result
  /\ requests r = [siblings_url article_id'].
Proof.
  intros Harticle Hactive. unfold validate_v041. stage.
  rewrite Harticle. stage.
  change (value (get_multiple_orders session article_id'))
    with (siblings session article_id') in *.
  destruct (siblings session article_id') as [|o others] eqn:Hsiblings;
    [now destruct Hactive|].
  stage.
  destruct (Nat.ltb 0 (length (not_canceled order_id (o :: others)))) eqn:Hlen.
  - stage. rewrite get_multiple_orders_requests. repeat split; reflexivity.
  - apply filter_nil_length in Hlen. contradiction.
Qed.

(** The result handed to the later rules once the sibling set is known to
    hold no active order. *)
Lemma validate_v041_all_canceled session order_id result (article_id' : string) :
  when PyStr.truthy (article_id result) = Some article_id' ->
  siblings session article_id' <> [] ->
  not_canceled order_id (siblings session article_id') = [] ->
  let canceled := canceled_orders order_id (siblings session article_id') in
  let scan := credit_memo_loop session canceled in
  let r := validate_v041 session order_id result in
  ∃ result',
    article_id result' = article_id result
    ∧ payment_method result' = payment_method result
    ∧ total_charged result' = total_charged result
    ∧ revenue_model result' = revenue_model result
    ∧ error result' = error result
    ∧ is_v041_error result' = true
    ∧ other_orders_not_canceled result' = 0
    ∧ match canceled with
      | [] =>
          can_resend (value r) = false
          ∧ validation_reason (value r) = "V041 error: no canceled order found"
          ∧ validation_step (value r) = "2.1. V041 - No canceled orders"
          ∧ error (value r) = error result
          ∧ requests r = [siblings_url article_id']
      | _ :: _ =>
          if value scan then
            canceled_order_has_credit_memo result' = Some true
            ∧ validation_step result'
              = "2.1. V041 - Ignored, validating revenue model"
            ∧ value r = value (validate_revenue_model session result')
            ∧ requests r
              = (siblings_url article_id' :: requests scan
                 ++ requests (validate_revenue_model session result'))%list
          else
            can_resend (value r) = false
            ∧ validation_reason (value r)
              = "V041 error: canceled order without credit memo - requires VIAX review"
            ∧ validation_step (value r) = "2.1. V041 - No credit memo"
            ∧ canceled_order_has_credit_memo (value r) = Some false
            ∧ error (value r) = error result
            ∧ requests r = (siblings_url article_id' :: requests scan)%list
      end.
Proof.
  intros Harticle Hnonempty Hnone. unfold validate_v041. stage.
  rewrite Harticle. stage.
  change (value (get_multiple_orders session article_id'))
    with (siblings session article_id') in *.
  destruct (siblings session article_id') as [|o others] eqn:Hsiblings;
    [now destruct Hnonempty|].
  stage. rewrite Hnone. cbn [length].
  change (Nat.ltb 0 0) with false. stage.
  rewrite get_multiple_orders_requests.
  destruct (canceled_orders order_id (o :: others)) as [|c cs] eqn:Hcanceled.
  - eexists (set_is_v041_error true (set_other_orders_not_canceled 0 result)).
    stage. repeat split; reflexivity.
  - stage.
    destruct (value (credit_memo_loop session (c :: cs))) eqn:Hscan; stage.
    + eexists
        (set_validation_step "2.1. V041 - Ignored, validating revenue model"
           (set_canceled_order_has_credit_memo (Some true)
              (set_other_orders_not_canceled 0
                 (set_other_orders (o :: others)
                    (set_validation_step "2. V041 error detection"
                       (set_is_v041_error true result)))))).
      repeat split; reflexivity.
    + eexists (set_is_v041_error true (set_other_orders_not_canceled 0 result)).
      repeat split; try reflexivity.
      now rewrite app_nil_r.
Qed.

Ltac order_stage :=
  unfold validate_order, get_order_details;
  unfold mbind, M_bind, mret, M_ret;
  cbn -[validate_v041 validate_revenue_model check_error_in_history
        String.append].

(** From the order query to rule 2.1: what the V041 rules are given. *)
Lemma validate_order_v041 session order_id (order_data : OrderData num)
  (order_details : OrderDetails) (article_id' : string) :
  v041_order session order_id order_data order_details article_id' ->
  ∃ result,
    when PyStr.truthy (article_id result) = Some article_id'
    ∧ payment_method result = paymentDetails order_data ≫= paymentMethod
    ∧ total_charged result
      = (λ payment, default num_int0 (totalChargedAmount payment))
        <$> paymentDetails order_data
    ∧ revenue_model result = None
    ∧ error result = None
    ∧ value (validate_order session order_id)
      = value (validate_v041 session order_id result)
    ∧ requests (validate_order session order_id)
      = ASAT_ORDER_URL order_id
        :: requests (validate_v041 session order_id result).
Proof.
  intros [[Hfetch Hdetails] [Hstatus [Herror Harticle]]].
  order_stage. rewrite Hfetch, Hdetails.
  destruct (check_error_in_history (orderHistory order_details))
    as [[has_error' code] desc] eqn:Hcheck.
  simpl in Herror. injection Herror as -> ->.
  destruct (article order_data) as [article'|]; [|discriminate].
  destruct (journal order_data), (paymentDetails order_data);
    order_stage; unfold canceled_status in Hstatus; rewrite Hstatus;
    order_stage; eexists; repeat split; try reflexivity; exact Harticle.
Qed.

(** *** The claims *)

(** C1.  A V041 order whose sibling set has a not-canceled member is denied:
    the members of the not-canceled partition are the siblings whose id,
    as a string, differs from the id of the order and whose status is not
    the canceled status or whose in-cancelled-state flag is not set; the
    reason of the denial cites their number; the decision is terminal (no
    sibling history and no product details are requested), whatever the
    canceled siblings and their credit memos. *)
Theorem v041_active_sibling_denies session order_id
  (order_data : OrderData num) (order_details : OrderDetails)
  (article_id' : string) :
  v041_order session order_id order_data order_details article_id' ->
  let active := not_canceled order_id (siblings session article_id') in
  active <> [] ->
  let r := validate_order session order_id in
  (∀ o, In o active ↔
        In o (siblings session article_id')
        ∧ py_str (orderUniqueId o) ≠ order_id
        ∧ (siblingStatus o ≠ Some canceled_status
           ∨ inCancelledState o ≠ Some true))
  ∧ can_resend (value r) = false
  ∧ validation_reason (value r)
    = "V041 error: " ++ PyStr.of_nat (length active)
      ++ " non-canceled order(s) detected - requires VIAX review"
  ∧ validation_step (value r) = "2.1. V041 - Multiple active orders"
  ∧ error (value r) = None
  ∧ requests r = [ASAT_ORDER_URL order_id; siblings_url article_id'].
Proof.
  intros Horder active Hactive r. split.
  - intros o. unfold active, not_canceled. rewrite filter_In.
    rewrite andb_true_iff, negb_true_iff, orb_true_iff, !negb_true_iff.
    rewrite String.eqb_neq.
    assert (eq_str (siblingStatus o) "OrderCanceledInAMP" = false
            ↔ siblingStatus o ≠ Some canceled_status) as ->.
    { unfold eq_str, canceled_status. destruct (siblingStatus o) as [s|].
      - rewrite String.eqb_neq. split; congruence.
      - split; [discriminate | reflexivity]. }
    assert (default false (inCancelledState o) = false
            ↔ inCancelledState o ≠ Some true) as ->.
    { destruct (inCancelledState o) as [[]|]; simpl; split; congruence. }
    tauto.
  - destruct (validate_order_v041 _ _ _ _ _ Horder)
      as (result & Harticle & _ & _ & _ & Herr & Hvalue & Hrequests).
    destruct (validate_v041_active session order_id result article_id'
                Harticle Hactive) as (Hcan & Hreason & Hstep & Herror & Hreq).
    subst r. rewrite Hvalue, Hrequests, Hcan, Hreason, Hstep, Herror, Hreq.
    repeat split; assumption.
Qed.

(** C2.  A V041 order whose sibling set, once fetched, has no not-canceled
    member: with no canceled sibling either it is denied, "no canceled
    order found"; otherwise the canceled siblings are gone through in the
    listed order, the history of each being requested and searched for an
    event whose type contains "Credit memo created", up to the first
    sibling that has one; when none has one the order is denied, "canceled
    order without credit memo"; when one has, the siblings listed after it
    are not requested and the verdict is the one of the revenue-model
    stage, entered with the V041 flag set. *)
Theorem v041_all_siblings_canceled session order_id
  (order_data : OrderData num) (order_details : OrderDetails)
  (article_id' : string) :
  v041_order session order_id order_data order_details article_id' ->
  siblings session article_id' <> [] ->
  not_canceled order_id (siblings session article_id') = [] ->
  let canceled := canceled_orders order_id (siblings session article_id') in
  let r := validate_order session order_id in
  (canceled = [] →
     can_resend (value r) = false
     ∧ validation_reason (value r) = "V041 error: no canceled order found"
     ∧ validation_step (value r) = "2.1. V041 - No canceled orders"
     ∧ requests r = [ASAT_ORDER_URL order_id; siblings_url article_id'])
  ∧ (canceled ≠ [] →
     existsb (has_credit_memo session) canceled = false →
     can_resend (value r) = false
     ∧ validation_reason (value r)
       = "V041 error: canceled order without credit memo - requires VIAX review"
     ∧ validation_step (value r) = "2.1. V041 - No credit memo"
     ∧ requests r
       = (ASAT_ORDER_URL order_id :: siblings_url article_id'
          :: history_queries canceled)%list)
  ∧ (∀ before o after,
       canceled = (before ++ o :: after)%list →
       existsb (has_credit_memo session) before = false →
       has_credit_memo session o = true →
       ∃ result,
         is_v041_error result = true
         ∧ validation_step result
           = "2.1. V041 - Ignored, validating revenue model"
         ∧ canceled_order_has_credit_memo result = Some true
         ∧ when PyStr.truthy (article_id result) = Some article_id'
         ∧ payment_method result = paymentDetails order_data ≫= paymentMethod
         ∧ total_charged result
           = (λ payment, default num_int0 (totalChargedAmount payment))
             <$> paymentDetails order_data
         ∧ revenue_model result = None
         ∧ value r = value (validate_revenue_model session result)
         ∧ requests r
           = (ASAT_ORDER_URL order_id :: siblings_url article_id'
              :: history_queries (before ++ [o])
              ++ requests (validate_revenue_model session result))%list).
Proof.
  intros Horder Hsiblings Hnone canceled r.
  destruct (validate_order_v041 _ _ _ _ _ Horder)
    as (result & Harticle & Hmethod & Hcharged & Hmodel & Herr & Hvalue & Hreq).
  destruct (validate_v041_all_canceled session order_id result article_id'
              Harticle Hsiblings Hnone)
    as (result' & Ha & Hm & Hc & Hr & He & Hflag & _ & Hcases).
  fold canceled in Hcases. subst r. rewrite Hvalue, Hreq.
  split; [|split].
  - intros Hempty. rewrite Hempty in Hcases.
    destruct Hcases as (? & ? & ? & ? & ->). auto.
  - intros Hnonempty Hscan.
    destruct canceled as [|c cs]; [now destruct Hnonempty|].
    rewrite (credit_memo_loop_none _ _ Hscan) in Hcases. simpl in Hcases.
    destruct Hcases as (? & ? & ? & ? & ? & ->). auto.
  - intros before o after Hsplit Hbefore Ho.
    rewrite Hsplit in Hcases.
    rewrite (credit_memo_loop_first _ _ after _ Hbefore Ho) in Hcases.
    simpl in Hcases.
    destruct (before ++ o :: after)%list as [|c cs] eqn:Hlist;
      [now destruct before|].
    destruct Hcases as (Hmemo & Hstep & Hv & ->).
    exists result'. rewrite Ha, Hm, Hc, Hr. auto 10.
Qed.

(** C10.  In the credit-memo scan a canceled sibling that has no usable
    order id, whose own order query fails or whose answer lacks the
    order-details section is passed over as if it had no credit memo, and
    the scan goes on with the next sibling; when every canceled sibling is
    passed over, the outcome is the rule denial "canceled order without
    credit memo", with no query-failure marker. *)
Theorem skipped_siblings_have_no_credit_memo session order_id
  (order_data : OrderData num) (order_details : OrderDetails)
  (article_id' : string) :
  v041_order session order_id order_data order_details article_id' ->
  not_canceled order_id (siblings session article_id') = [] ->
  let canceled := canceled_orders order_id (siblings session article_id') in
  canceled <> [] ->
  forallb (skipped session) canceled = true ->
  let r := validate_order session order_id in
  (∀ o, skipped session o = true ↔
        truthy_scalar (orderUniqueId o) = false
        ∨ when truthy_order
            (value (get_order_details session (py_str (orderUniqueId o))))
          ≫= orderDetails = None)
  ∧ (∀ o rest, skipped session o = true →
       value (credit_memo_loop session (o :: rest))
       = value (credit_memo_loop session rest))
  ∧ can_resend (value r) = false
  ∧ validation_reason (value r)
    = "V041 error: canceled order without credit memo - requires VIAX review"
  ∧ validation_step (value r) = "2.1. V041 - No credit memo"
  ∧ canceled_order_has_credit_memo (value r) = Some false
  ∧ error (value r) = None.
Proof.
  intros Horder Hnone canceled Hnonempty Hskipped r.
  split; [|split].
  - intros o. unfold skipped, sibling_history.
    rewrite get_order_details_value.
    destruct (truthy_scalar (orderUniqueId o)).
    + destruct (when truthy_order _ ≫= orderDetails); simpl; split;
        intros Ho; try discriminate; try (destruct Ho; discriminate);
        auto.
    + simpl. split; auto.
  - intros o rest Ho. rewrite credit_memo_loop_cons.
    now rewrite (skipped_no_credit_memo _ _ Ho).
  - assert (existsb (has_credit_memo session) canceled = false) as Hscan.
    { clear -Hskipped. induction canceled as [|o rest IH]; [reflexivity|].
      simpl in *. apply andb_true_iff in Hskipped as [Ho Hrest].
      now rewrite (skipped_no_credit_memo _ _ Ho), IH. }
    assert (siblings session article_id' <> []) as Hsiblings.
    { intros Hempty. apply Hnonempty. unfold canceled. now rewrite Hempty. }
    destruct (validate_order_v041 _ _ _ _ _ Horder)
      as (result & Harticle & _ & _ & _ & Herr & Hvalue & _).
    destruct (validate_v041_all_canceled session order_id result article_id'
                Harticle Hsiblings Hnone) as (result' & _ & _ & _ & _ & _ & _ & _ & Hcases).
    fold canceled in Hcases. subst r. rewrite Hvalue.
    destruct canceled as [|c cs]; [now destruct Hnonempty|].
    rewrite (credit_memo_loop_none _ _ Hscan) in Hcases. simpl in Hcases.
    destruct Hcases as (? & ? & ? & ? & He & _). rewrite He. auto.
Qed.

(** C3.  An order that is fetched with the status "OrderCanceledInAMP" is
    denied with the reason "Order canceled (OrderCanceledInAMP)" at the
    step "1. Canceled status check", whatever its history, its article and
    its payment details; nothing else is requested. *)
Theorem canceled_order_denied session order_id
  (order_data : OrderData num) (order_details : OrderDetails) :
  fetched session order_id order_data order_details ->
  orderStatus order_details = Some "OrderCanceledInAMP" ->
  let r := validate_order session order_id in
  can_resend (value r) = false
  ∧ validation_reason (value r) = "Order canceled (OrderCanceledInAMP)"
  ∧ validation_step (value r) = "1. Canceled status check"
  ∧ error (value r) = None
  ∧ has_error (value r) = false
  ∧ revenue_model (value r) = None
  ∧ requests r = [ASAT_ORDER_URL order_id].
Proof.
  intros [Hfetch Hdetails] Hstatus. order_stage.
  rewrite Hfetch, Hdetails.
  destruct (article order_data), (journal order_data),
    (paymentDetails order_data); order_stage; rewrite Hstatus; order_stage;
    repeat split; reflexivity.
Qed.

(** C4, as the code has it.  A fetched order that is not canceled and whose
    first error event yields a code other than "V041" is denied at the step
    "2.2. Other error detected"; the reason is "Error detected: ", the
    code, " - " and the description, where the literal "DESCONHECIDO"
    stands for a code that is absent or empty; only the order itself has
    been requested: neither the sibling orders nor the product details. *)
Theorem other_error_denied session order_id
  (order_data : OrderData num) (order_details : OrderDetails)
  (code : option string) (desc : string) :
  fetched session order_id order_data order_details ->
  eq_str (orderStatus order_details) canceled_status = false ->
  check_error_in_history (orderHistory order_details)
  = (true, code, Some desc) ->
  eq_str code "V041" = false ->
  let r := validate_order session order_id in
  let shown :=
    match code with
    | Some (String c rest) => String c rest
    | _ => "DESCONHECIDO"
    end in
  can_resend (value r) = false
  ∧ validation_reason (value r)
    = "Error detected: " ++ shown ++ " - " ++ desc
  ∧ validation_step (value r) = "2.2. Other error detected"
  ∧ error (value r) = None
  ∧ revenue_model (value r) = None
  ∧ requests r = [ASAT_ORDER_URL order_id].
Proof.
  intros [Hfetch Hdetails] Hstatus Hcheck Hcode. order_stage.
  rewrite Hfetch, Hdetails. unfold canceled_status in Hstatus.
  assert (or_str code "DESCONHECIDO"
          = match code with
            | Some (String c rest) => String c rest
            | _ => "DESCONHECIDO"
            end) as Hshown by (now destruct code as [[|c rest]|]).
  destruct (article order_data), (journal order_data),
    (paymentDetails order_data); order_stage;
    rewrite Hstatus, Hcheck; order_stage; rewrite Hcode; order_stage;
    rewrite Hshown; repeat split; reflexivity.
Qed.

(** C5.  [validate_revenue_model_rules] is a function of its three
    arguments.  It denies exactly for the model "OO" with an amount equal
    to zero and for the model "OA" with the method "Invoice" and an amount
    equal to zero, with the two reasons of the table; any other model
    allows; and the amount only matters through its comparison with
    zero. *)
Theorem revenue_model_rules_table (revenue_model' payment_method' : string)
  (total_charged' : num) :
  let verdict :=
    validate_revenue_model_rules revenue_model' payment_method' total_charged' in
  (fst verdict = false ↔
     (revenue_model' = "OO" ∧ num_eq0 total_charged' = true)
     ∨ (revenue_model' = "OA" ∧ payment_method' = "Invoice"
        ∧ num_eq0 total_charged' = true))
  ∧ (revenue_model' = "OO" → num_eq0 total_charged' = true →
     verdict = (false, "OO with totalChargedAmount = 0"))
  ∧ (revenue_model' = "OA" → payment_method' = "Invoice" →
     num_eq0 total_charged' = true →
     verdict = (false, "OA + Invoice with totalChargedAmount = 0"))
  ∧ (revenue_model' ≠ "OO" → revenue_model' ≠ "OA" →
     verdict = (true, "Revenue Model " ++ revenue_model'))
  ∧ (∀ other : num, num_eq0 other = num_eq0 total_charged' →
     fst (validate_revenue_model_rules revenue_model' payment_method' other)
     = fst verdict).
Proof.
  unfold validate_revenue_model_rules.
  destruct (String.eqb_spec revenue_model' "OO") as [->|Hoo].
  - simpl. destruct (num_eq0 total_charged') eqn:Hzero; simpl;
      repeat split; try intuition congruence.
    + intros other ->. reflexivity.
    + intros other ->. reflexivity.
  - destruct (String.eqb_spec revenue_model' "OA") as [->|Hoa].
    + destruct (String.eqb_spec payment_method' "Invoice") as [->|Hinv];
        [destruct (num_eq0 total_charged') eqn:Hzero|]; simpl;
        repeat split; try intuition congruence.
      * intros other ->. reflexivity.
      * intros other ->. reflexivity.
    + simpl. repeat split; try intuition congruence.
Qed.

(** C6, as the code has it.  [check_error_in_history] goes through the
    history in order.  An event is an error event when its type contains
    "Error" or, once lower-cased, "error".  With no error event the answer
    is (False, None, None).  Otherwise the first error event decides alone,
    whatever comes after it: the answer carries its description and the code
    "V041" when the description contains "V041"; else, when the
    description contains a colon, the text before the first colon with the
    surrounding whitespace stripped, provided the stripped text is under 10
    characters; else no code. *)
Theorem first_error_event_decides (history : list Event) :
  let is_error := λ event,
    PyStr.contains "Error" (eventType event)
    || PyStr.contains "error" (PyStr.lower (eventType event)) in
  (forallb (λ event, negb (is_error event)) history = true →
   check_error_in_history history = (false, None, None))
  ∧ (∀ before event after,
       history = (before ++ event :: after)%list →
       forallb (λ e, negb (is_error e)) before = true →
       is_error event = true →
       let desc := eventDescription event in
       let stripped := PyStr.strip (text_before ":" desc) in
       check_error_in_history history
       = (true,
          (if PyStr.contains "V041" desc then Some "V041"
           else if PyStr.contains ":" desc
                   && Nat.ltb (PyStr.len stripped) 10
                then Some stripped
                else None),
          Some desc)).
Proof.
  intros is_error. split.
  - apply check_error_in_history_no_match.
  - intros before event after -> Hbefore Hevent desc stripped.
    rewrite (check_error_in_history_first_match _ _ _ Hbefore Hevent).
    unfold extract_error_code. rewrite split_hd. fold desc. fold stripped.
    destruct (PyStr.contains "V041" desc); [reflexivity|].
    destruct (PyStr.contains ":" desc); reflexivity.
Qed.

(** An order whose query is answered with nothing usable carries the
    query-failure marker and is counted with the query errors. *)
Lemma unreachable_order_is_query_error session order_id :
  when truthy_order (ok_json (order_endpoint session (ASAT_ORDER_URL order_id)))
  = None ->
  let r := value (validate_order session order_id) in
  error r = Some "Could not query the order"
  ∧ validation_step r = "1. Order query"
  ∧ errors [r] = 1 ∧ blocked [r] = 0.
Proof.
  intros Hfetch. order_stage. rewrite Hfetch. repeat split; reflexivity.
Qed.

(** C7, where the code departs from it.  When the order query is answered
    with a non-empty body that lacks the order-details section, the result
    has the step "1. Order query" but no query-failure marker: [error]
    stays [None], and the summary of [main] counts the order among those
    blocked by rules, its reason entering the table of blocking reasons. *)
Theorem missing_order_details_counted_as_blocked session order_id
  (order_data : OrderData num) :
  when truthy_order (ok_json (order_endpoint session (ASAT_ORDER_URL order_id)))
  = Some order_data ->
  orderDetails order_data = None ->
  let r := value (validate_order session order_id) in
  error r = None
  ∧ can_resend r = false
  ∧ validation_reason r = "orderDetails not found na resposta"
  ∧ validation_step r = "1. Order query"
  ∧ errors [r] = 0
  ∧ blocked [r] = 1
  ∧ bloqueio_counts [r] !! "orderDetails not found na resposta" = Some 1.
Proof.
  intros Hfetch Hdetails. order_stage. rewrite Hfetch, Hdetails.
  repeat split; reflexivity.
Qed.

(** Rule 3 once the revenue model is known: the verdict is the one of the
    rule set; the reason is prefixed by the verdict and, for an approval of
    a V041 order only, by the mention that V041 was ignored. *)
Lemma validate_revenue_model_verdict session result
  (article_id' revenue_model' : string) (product_data : ProductData) :
  when PyStr.truthy (article_id result) = Some article_id' ->
  when truthy_product
    (ok_json (product_endpoint session (PRODUCT_DETAILS_URL article_id')))
  = Some product_data ->
  when PyStr.truthy
    (match productJournal product_data with
     | Some j => revenueModel j
     | None => revenue_model result
     end) = Some revenue_model' ->
  let verdict :=
    validate_revenue_model_rules revenue_model'
      (or_str (payment_method result) "")
      (or_num (total_charged result) num_int0) in
  let final := value (validate_revenue_model session result) in
  can_resend final = fst verdict
  ∧ validation_reason final
    = (if fst verdict
       then if is_v041_error result
            then "✅ CAN RESEND: V041 ignored + " ++ snd verdict
            else "✅ CAN RESEND: " ++ snd verdict
       else "❌ BLOCKED: " ++ snd verdict)
  ∧ validation_step final = validation_step result
  ∧ is_v041_error final = is_v041_error result
  ∧ error final = error result.
Proof.
  intros Harticle Hproduct Hmodel verdict final. subst final verdict.
  unfold validate_revenue_model, get_product_details.
  unfold mbind, M_bind, mret, M_ret.
  cbn -[validate_revenue_model_rules String.append].
  rewrite Harticle. cbn -[validate_revenue_model_rules String.append].
  rewrite Hproduct. cbn -[validate_revenue_model_rules String.append].
  destruct (productJournal product_data) as [j|];
    cbn -[validate_revenue_model_rules String.append];
    rewrite Hmodel;
    destruct (validate_revenue_model_rules _ _ _) as [[] reason];
    cbn -[String.append]; try destruct (is_v041_error result) eqn:Hflag;
    cbn -[String.append]; rewrite ?Hflag; repeat split; reflexivity.
Qed.

(** C8, as the code has it.  When the revenue-model stage is entered with
    the V041 flag set and reaches the rule set, an approval has the reason
    "✅ CAN RESEND: V041 ignored + " followed by the reason of the rule set;
    a denial has the reason "❌ BLOCKED: " followed by the reason of the rule
    set, which does not mention V041.  In both outcomes the flag and the
    step recorded on entry are kept. *)
Theorem waiver_tag_on_approval_only session result
  (article_id' revenue_model' : string) (product_data : ProductData) :
  is_v041_error result = true ->
  when PyStr.truthy (article_id result) = Some article_id' ->
  when truthy_product
    (ok_json (product_endpoint session (PRODUCT_DETAILS_URL article_id')))
  = Some product_data ->
  when PyStr.truthy
    (match productJournal product_data with
     | Some j => revenueModel j
     | None => revenue_model result
     end) = Some revenue_model' ->
  let verdict :=
    validate_revenue_model_rules revenue_model'
      (or_str (payment_method result) "")
      (or_num (total_charged result) num_int0) in
  let final := value (validate_revenue_model session result) in
  can_resend final = fst verdict
  ∧ (fst verdict = true →
     validation_reason final
     = "✅ CAN RESEND: V041 ignored + " ++ snd verdict)
  ∧ (fst verdict = false →
     validation_reason final = "❌ BLOCKED: " ++ snd verdict
     ∧ PyStr.contains "V041" (validation_reason final) = false)
  ∧ validation_step final = validation_step result
  ∧ is_v041_error final = true.
Proof.
  intros Hflag Harticle Hproduct Hmodel verdict final.
  destruct (validate_revenue_model_verdict session result _ _ _
              Harticle Hproduct Hmodel)
    as (Hcan & Hreason & Hstep & Hkept & _).
  fold verdict final in Hcan, Hreason, Hstep, Hkept.
  rewrite Hflag in Hreason, Hkept.
  split; [assumption|]. split; [|split; [|split; assumption]].
  - intros Hallow. now rewrite Hallow in Hreason.
  - intros Hdeny. rewrite Hdeny in Hreason. split; [assumption|].
    rewrite Hreason. clear -Hdeny.
    subst verdict. unfold validate_revenue_model_rules in *.
    destruct (String.eqb revenue_model' "OO").
    + destruct (num_eq0 _); [reflexivity | discriminate].
    + destruct (String.eqb revenue_model' "OA"); [|discriminate].
      destruct (String.eqb _ "Invoice"); [|discriminate].
      destruct (num_eq0 _); [reflexivity | discriminate].
Qed.

(** C9, where the code departs from it.  The id sent as [dhId] is the
    article id with every occurrence of "PD" removed, not only a leading
    one: for "PD12PD34" the orders of "1234" are requested, where stripping
    the prefix gives "12PD34"; and "AB-PD7", which has no such prefix,
    is sent as "AB-7". *)
Theorem clean_article_id_removes_every_PD session :
  clean_article_id "PD12PD34" = "1234"
  ∧ spec_strip_leading_PD "PD12PD34" = "12PD34"
  ∧ requests (get_multiple_orders session "PD12PD34")
    = [MULTIPLE_ORDERS_URL ++ "?dhId=1234"]
  ∧ clean_article_id "AB-PD7" = "AB-7"
  ∧ spec_strip_leading_PD "AB-PD7" = "AB-PD7".
Proof. repeat split; reflexivity. Qed.

End Properties.

(** ** The claims on the sample snapshot *)

Lemma v041_active_sibling_denies_witness :
  v041_order Sample.session "1001" Sample.order_1001 Sample.details_1001 "PD501"
  ∧ not_canceled "1001" (siblings Sample.session "PD501") <> []
  ∧ has_credit_memo Sample.session
      (Sample.sibling (Str "1002") "OrderCanceledInAMP" (Some true)) = true
  ∧ validation_reason (value (validate_order Sample.session "1001"))
    = "V041 error: 1 non-canceled order(s) detected - requires VIAX review".
Proof.
  assert (v041_order Sample.session "1001" Sample.order_1001
            Sample.details_1001 "PD501") as Horder
    by (repeat split; reflexivity).
  assert (not_canceled "1001" (siblings Sample.session "PD501") <> [])
    as Hactive by (vm_compute; discriminate).
  split; [exact Horder|]. split; [exact Hactive|]. split; [reflexivity|].
  exact (proj1 (proj2 (proj2
    (v041_active_sibling_denies Sample.session "1001" _ _ _ Horder Hactive)))).
Defined.

Lemma v041_all_siblings_canceled_witness :
  v041_order Sample.session "2001" Sample.order_2001 Sample.details_2001 "PD502"
  ∧ siblings Sample.session "PD502" <> []
  ∧ not_canceled "2001" (siblings Sample.session "PD502") = []
  ∧ ∃ result,
      is_v041_error result = true
      ∧ value (validate_order Sample.session "2001")
        = value (validate_revenue_model Sample.session result)
      ∧ requests (validate_order Sample.session "2001")
        = (ASAT_ORDER_URL "2001" :: siblings_url "PD502"
           :: [ASAT_ORDER_URL "2002"; ASAT_ORDER_URL "2003"]
           ++ requests (validate_revenue_model Sample.session result))%list.
Proof.
  assert (v041_order Sample.session "2001" Sample.order_2001
            Sample.details_2001 "PD502") as Horder
    by (repeat split; reflexivity).
  assert (siblings Sample.session "PD502" <> []) as Hsiblings
    by (vm_compute; discriminate).
  assert (not_canceled "2001" (siblings Sample.session "PD502") = [])
    as Hnone by reflexivity.
  split; [exact Horder|]. split; [exact Hsiblings|]. split; [exact Hnone|].
  destruct (proj2 (proj2
    (v041_all_siblings_canceled Sample.session "2001" _ _ _
       Horder Hsiblings Hnone))
    [Sample.sibling_2002] Sample.sibling_2003 [Sample.sibling_2004]
    eq_refl eq_refl eq_refl)
    as (result & Hflag & _ & _ & _ & _ & _ & _ & Hvalue & Hrequests).
  exists result. split; [exact Hflag|]. split; [exact Hvalue|].
  exact Hrequests.
Defined.

Lemma skipped_siblings_have_no_credit_memo_witness :
  v041_order Sample.session "3001" Sample.order_3001 Sample.details_3001 "PD503"
  ∧ not_canceled "3001" (siblings Sample.session "PD503") = []
  ∧ canceled_orders "3001" (siblings Sample.session "PD503") <> []
  ∧ forallb (skipped Sample.session)
      (canceled_orders "3001" (siblings Sample.session "PD503")) = true
  ∧ validation_reason (value (validate_order Sample.session "3001"))
    = "V041 error: canceled order without credit memo - requires VIAX review"
  ∧ error (value (validate_order Sample.session "3001")) = None.
Proof.
  assert (v041_order Sample.session "3001" Sample.order_3001
            Sample.details_3001 "PD503") as Horder
    by (repeat split; reflexivity).
  assert (canceled_orders "3001" (siblings Sample.session "PD503") <> [])
    as Hcanceled by (vm_compute; discriminate).
  split; [exact Horder|]. split; [reflexivity|]. split; [exact Hcanceled|].
  split; [reflexivity|].
  pose proof (skipped_siblings_have_no_credit_memo Sample.session "3001"
                _ _ _ Horder eq_refl Hcanceled eq_refl)
    as (_ & _ & _ & Hreason & _ & _ & Herror).
  split; [exact Hreason | exact Herror].
Defined.

Lemma canceled_order_denied_witness :
  fetched Sample.session "1002" Sample.order_1002 Sample.details_1002
  ∧ orderStatus Sample.details_1002 = Some "OrderCanceledInAMP"
  ∧ fst (check_error_in_history (orderHistory Sample.details_1002))
    = (true, Some "E77")
  ∧ validation_reason (value (validate_order Sample.session "1002"))
    = "Order canceled (OrderCanceledInAMP)"
  ∧ validation_step (value (validate_order Sample.session "1002"))
    = "1. Canceled status check".
Proof.
  assert (fetched Sample.session "1002" Sample.order_1002 Sample.details_1002)
    as Hfetched by (split; reflexivity).
  split; [exact Hfetched|]. split; [reflexivity|]. split; [reflexivity|].
  pose proof (canceled_order_denied Sample.session "1002" _ _
                Hfetched eq_refl) as (_ & Hreason & Hstep & _).
  split; [exact Hreason | exact Hstep].
Defined.

Lemma other_error_denied_witness :
  fetched Sample.session "4001" Sample.order_4001 Sample.details_4001
  ∧ eq_str (orderStatus Sample.details_4001) canceled_status = false
  ∧ check_error_in_history (orderHistory Sample.details_4001)
    = (true, None, Some "boom")
  ∧ validation_reason (value (validate_order Sample.session "4001"))
    = "Error detected: DESCONHECIDO - boom"
  ∧ requests (validate_order Sample.session "4001") = [ASAT_ORDER_URL "4001"].
Proof.
  assert (fetched Sample.session "4001" Sample.order_4001 Sample.details_4001)
    as Hfetched by (split; reflexivity).
  split; [exact Hfetched|]. split; [reflexivity|]. split; [reflexivity|].
  pose proof (other_error_denied Sample.session "4001" _ _ None "boom"
                Hfetched eq_refl eq_refl eq_refl)
    as (_ & Hreason & _ & _ & _ & Hrequests).
  split; [exact Hreason | exact Hrequests].
Defined.

(** C4 as specified fails on order 4001: the reason of its denial is
    "Error detected: DESCONHECIDO - boom", which does not contain
    "unknown". *)
Lemma other_error_reason_counterexample :
  ¬ other_error_reason_as_specified Sample.session "4001".
Proof.
  intros Hclaim.
  destruct (Hclaim Sample.order_4001 Sample.details_4001 None "boom")
    as (_ & Hunknown & _).
  - split; reflexivity.
  - reflexivity.
  - reflexivity.
  - discriminate.
  - vm_compute in Hunknown. discriminate.
Qed.

(** C6 as specified fails on a description whose code is followed or
    preceded by a blank: the code returns the stripped text. *)
Lemma spec_error_code_counterexample :
  check_error_in_history [Sample.event "Order Error" " E1: bad"]
  = (true, Some "E1", Some " E1: bad")
  ∧ spec_check_error_in_history [Sample.event "Order Error" " E1: bad"]
    = (true, Some " E1", Some " E1: bad")
  ∧ check_error_in_history [Sample.event "Order Error" "123456789 : bad"]
    = (true, Some "123456789", Some "123456789 : bad")
  ∧ spec_check_error_in_history [Sample.event "Order Error" "123456789 : bad"]
    = (true, None, Some "123456789 : bad")
  ∧ check_error_in_history [Sample.event "Order Error" " E1: bad"]
    ≠ spec_check_error_in_history [Sample.event "Order Error" " E1: bad"].
Proof.
  repeat split; try reflexivity. vm_compute. discriminate.
Qed.

Lemma missing_order_details_counted_as_blocked_witness :
  when truthy_order
    (ok_json (order_endpoint Sample.session (ASAT_ORDER_URL "5001")))
  = Some Sample.not_an_order
  ∧ orderDetails Sample.not_an_order = None
  ∧ error (value (validate_order Sample.session "5001")) = None
  ∧ blocked [value (validate_order Sample.session "5001")] = 1
  ∧ errors [value (validate_order Sample.session "5001")] = 0.
Proof.
  split; [reflexivity|]. split; [reflexivity|].
  pose proof (missing_order_details_counted_as_blocked Sample.session "5001"
                Sample.not_an_order eq_refl eq_refl)
    as (Herror & _ & _ & _ & Herrors & Hblocked & _).
  split; [exact Herror|]. split; [exact Hblocked | exact Herrors].
Defined.

Lemma waiver_tag_on_approval_only_witness :
  is_v041_error Sample.waived_6001 = true
  ∧ when PyStr.truthy (article_id Sample.waived_6001) = Some "PD506"
  ∧ validation_reason
      (value (validate_revenue_model Sample.session Sample.waived_6001))
    = "❌ BLOCKED: OO with totalChargedAmount = 0".
Proof.
  split; [reflexivity|]. split; [reflexivity|].
  pose proof (waiver_tag_on_approval_only Sample.session Sample.waived_6001
                "PD506" "OO" (Sample.product "OO")
                eq_refl eq_refl eq_refl eq_refl)
    as (_ & _ & Hdeny & _).
  exact (proj1 (Hdeny eq_refl)).
Defined.

(** C8 as specified fails on order 6001: V041 is waived, the rule set is
    evaluated and denies, and the reason is
    "❌ BLOCKED: OO with totalChargedAmount = 0". *)
Lemma waiver_tag_counterexample :
  ¬ waiver_tagged_as_specified Sample.session "6001".
Proof.
  intros Hclaim. unfold waiver_tagged_as_specified in Hclaim.
  specialize (Hclaim eq_refl eq_refl).
  vm_compute in Hclaim. discriminate.
Qed.

(** ** Further properties of the code *)

Section MoreProperties.

Context {num : Type} `{PyNumber num}.

Implicit Types (session : Session num) (order_id : string).
Implicit Types (result : OrderResult num) (o : SiblingOrder).

(** *** Strings *)

Lemma prefix_cons (a b : ascii) (s t : string) :
  String.prefix (String a s) (String b t)
  = Ascii.eqb a b && String.prefix s t.
Proof.
  simpl. destruct (ascii_dec a b) as [->|Hne].
  - now rewrite Ascii.eqb_refl.
  - apply Ascii.eqb_neq in Hne. now rewrite Hne.
Qed.

Lemma prefix_lower (sub s : string) :
  String.prefix sub s = true ->
  String.prefix (PyStr.lower sub) (PyStr.lower s) = true.
Proof.
  revert s. induction sub as [|a sub IH]; intros [|b s]; try reflexivity;
    try discriminate.
  change (PyStr.lower (String a sub))
    with (String (PyStr.lower_char a) (PyStr.lower sub)).
  change (PyStr.lower (String b s))
    with (String (PyStr.lower_char b) (PyStr.lower s)).
  rewrite !prefix_cons.
  intros [Hab Hrest]%andb_true_iff. apply Ascii.eqb_eq in Hab as ->.
  now rewrite Ascii.eqb_refl, (IH _ Hrest).
Qed.

Lemma contains_lower (sub s : string) :
  PyStr.contains sub s = true ->
  PyStr.contains (PyStr.lower sub) (PyStr.lower s) = true.
Proof.
  induction s as [|c s IH].
  - cbn [PyStr.contains PyStr.lower]. rewrite !orb_false_r.
    apply (prefix_lower sub "").
  - cbn [PyStr.contains PyStr.lower]. fold (PyStr.lower s).
    intros [Hp|Hc]%orb_true_iff; apply orb_true_iff.
    + left. now apply (prefix_lower sub (String c s)).
    + right. auto.
Qed.

(** X1.  The test ["Error" in event_type] of line 246 never decides: an
    event is an error event exactly when its type, lower-cased, contains
    "error". *)
Theorem is_error_event_lower (event : Event) :
  is_error_event event
  = PyStr.contains "error" (PyStr.lower (eventType event)).
Proof.
  unfold is_error_event.
  destruct (PyStr.contains "Error" (eventType event)) eqn:Hupper;
    [|reflexivity].
  apply contains_lower in Hupper. exact (eq_sym Hupper).
Qed.

(** X2.  What [check_error_in_history] returns: the flag tells whether the
    history has an error event; without one there is no code and no
    description; with one, the description is the one of an error event
    of the history; and a code, when there is one, is shorter than 10
    characters. *)
Theorem check_error_in_history_summary (history : list Event) :
  let answer := check_error_in_history history in
  answer.1.1 = existsb is_error_event history
  ∧ (answer.1.1 = false → answer = (false, None, None))
  ∧ (answer.1.1 = true →
     ∃ event, In event history ∧ is_error_event event = true
              ∧ answer.1.2 = extract_error_code (eventDescription event)
              ∧ answer.2 = Some (eventDescription event))
  ∧ (∀ code, answer.1.2 = Some code → PyStr.len code < 10).
Proof.
  induction history as [|event rest IH]; cbn [check_error_in_history existsb].
  - repeat split; try reflexivity; try discriminate.
  - destruct (is_error_event event) eqn:Hevent.
    + cbn. repeat split; try discriminate.
      * intros _. exists event. rewrite Hevent. auto.
      * unfold extract_error_code. intros code.
        destruct (PyStr.contains "V041" _);
          [intros [= <-]; now apply Nat.ltb_lt|].
        destruct (PyStr.contains ":" _); [|discriminate].
        destruct (Nat.ltb _ 10) eqn:Hlen; [|discriminate].
        intros [= <-]. now apply Nat.ltb_lt.
    + cbn [orb]. destruct IH as (Hflag & Hnone & Hsome & Hlen).
      repeat split; try assumption.
      intros Htrue. destruct (Hsome Htrue) as (e & He & Hrest).
      exists e. split; [now right | exact Hrest].
Qed.

Lemma existsb_Permutation {A : Type} (p : A -> bool) (l l' : list A) :
  Permutation l l' -> existsb p l = existsb p l'.
Proof.
  induction 1 as [|a l l' _ IH|a b l|l l' l'' _ IH1 _ IH2]; cbn [existsb].
  - reflexivity.
  - now rewrite IH.
  - now destruct (p a), (p b).
  - congruence.
Qed.

(** X3.  [check_credit_memo_in_history] does not depend on the order of the
    events, and a history made of two parts has a credit memo exactly when
    one of the parts has. *)
Theorem check_credit_memo_in_history_order (history history' : list Event) :
  (Permutation history history' →
   check_credit_memo_in_history history
   = check_credit_memo_in_history history')
  ∧ check_credit_memo_in_history (history ++ history')%list
    = check_credit_memo_in_history history
      || check_credit_memo_in_history history'.
Proof.
  rewrite !check_credit_memo_in_history_existsb. split.
  - apply existsb_Permutation.
  - apply existsb_app.
Qed.

Lemma replace_from_absent (old new s : string) :
  old ≠ "" ->
  PyStr.contains old s = false ->
  PyStr.replace_from old new 0 s = s.
Proof.
  intros Hold. induction s as [|c s IH]; [reflexivity|].
  cbn [PyStr.contains PyStr.replace_from].
  intros [Hprefix Hrest]%orb_false_iff.
  rewrite Hprefix. now rewrite IH.
Qed.

Lemma drop_prefix_Some (p s rest : string) :
  PyStr.drop_prefix p s = Some rest -> s = p ++ rest.
Proof.
  revert s. induction p as [|a p IH]; intros s; cbn [PyStr.drop_prefix].
  - now intros [= ->].
  - destruct s as [|b s]; [discriminate|].
    destruct (Ascii.eqb_spec a b) as [->|]; [|discriminate].
    intros Hrest. cbn. now rewrite (IH _ Hrest).
Qed.

Lemma clean_article_id_replace (article_id' : string) :
  clean_article_id article_id' = PyStr.replace_from "PD" "" 0 article_id'.
Proof. now destruct article_id'. Qed.

(** X4.  The id sent to the sibling lookup is the article id without its
    leading "PD" whenever "PD" occurs nowhere else in the id. *)
Theorem clean_article_id_leading_PD (article_id' : string) :
  PyStr.contains "PD" (spec_strip_leading_PD article_id') = false ->
  clean_article_id article_id' = spec_strip_leading_PD article_id'.
Proof.
  rewrite clean_article_id_replace. unfold spec_strip_leading_PD.
  destruct (PyStr.drop_prefix "PD" article_id') as [rest|] eqn:Hdrop;
    cbn [default]; intros Hrest.
  - apply drop_prefix_Some in Hdrop as ->.
    change ("PD" ++ rest) with (String "P" (String "D" rest)).
    assert (String.prefix "PD" (String "P" (String "D" rest)) = true)
      as Hprefix by (rewrite !prefix_cons; now destruct rest).
    cbn [PyStr.replace_from]. rewrite Hprefix.
    cbn [String.length Nat.sub PyStr.replace_from String.append].
    now apply replace_from_absent.
  - now apply replace_from_absent.
Qed.

(** *** The gateway *)

(** X5.  The three getters issue exactly one request and never give data
    that does not come from an answer with [resp.ok] and a JSON body: an
    order or a product is the body of such an answer, and a non-empty list
    of sibling orders is its [payload]. *)
Theorem getters_answer_from_ok_responses session (some_id : string) :
  requests (get_order_details session some_id) = [ASAT_ORDER_URL some_id]
  ∧ requests (get_product_details session some_id)
    = [PRODUCT_DETAILS_URL some_id]
  ∧ requests (get_multiple_orders session some_id) = [siblings_url some_id]
  ∧ (∀ body, value (get_order_details session some_id) = Some body →
       order_endpoint session (ASAT_ORDER_URL some_id)
       = Response true (Some body))
  ∧ (∀ body, value (get_product_details session some_id) = Some body →
       product_endpoint session (PRODUCT_DETAILS_URL some_id)
       = Response true (Some body))
  ∧ (value (get_multiple_orders session some_id) ≠ [] →
       ∃ body,
         orders_endpoint session (siblings_url some_id)
         = Response true (Some body)
         ∧ payload body
           = Some (value (get_multiple_orders session some_id))).
Proof.
  split; [reflexivity|]. split; [reflexivity|]. split; [reflexivity|].
  unfold get_order_details, get_product_details, get_multiple_orders,
    siblings_url, ok_json.
  cbn -[String.append clean_article_id].
  split; [|split].
  - intros body. destruct (order_endpoint _ _) as [|[] json];
      try discriminate. now intros ->.
  - intros body. destruct (product_endpoint _ _) as [|[] json];
      try discriminate. now intros ->.
  - destruct (orders_endpoint _ _) as [|[] [body|]];
      try (intros Hne; now destruct Hne).
    destruct (payload body) as [orders|] eqn:Hpayload;
      [|intros Hne; now destruct Hne].
    intros _. exists body. now rewrite Hpayload.
Qed.

(** *** The decision hierarchy as a whole *)

Ltac run :=
  unfold mbind, M_bind, mret, M_ret;
  cbn -[get_multiple_orders not_canceled canceled_orders credit_memo_loop
        validate_v041 validate_revenue_model validate_revenue_model_rules
        check_error_in_history get_product_details PyStr.of_nat
        String.append Nat.ltb validation_steps].

Ltac run_in H :=
  cbn -[get_multiple_orders not_canceled canceled_orders credit_memo_loop
        validate_v041 validate_revenue_model validate_revenue_model_rules
        check_error_in_history get_product_details PyStr.of_nat
        String.append Nat.ltb validation_steps] in H.

Ltac in_steps :=
  match goal with
  | |- In _ validation_steps =>
      unfold validation_steps; cbn [In];
      solve [repeat (first [left; reflexivity | right])]
  end.

Ltac settle :=
  repeat split;
  first [ reflexivity | discriminate | assumption | in_steps
        | cbn [length requests]; rewrite ?length_app, ?app_nil_r;
          cbn [length] in *; lia
        | intros ?; discriminate ].

Lemma when_Some {A : Type} (truthy : A -> bool) (x : option A) (a : A) :
  when truthy x = Some a -> x = Some a ∧ truthy a = true.
Proof.
  unfold when. destruct x as [b|]; [|discriminate].
  destruct (truthy b) eqn:Hb; [|discriminate]. now intros [= ->].
Qed.

Lemma credit_memo_loop_requests_length session (l : list SiblingOrder) :
  (length (requests (credit_memo_loop session l)) <= length l)%nat.
Proof.
  induction l as [|o rest IH]; [reflexivity|].
  rewrite credit_memo_loop_cons.
  assert (length (history_queries [o]) <= 1)%nat as Ho.
  { unfold history_queries. cbn.
    destruct (truthy_scalar (orderUniqueId o)); cbn; lia. }
  destruct (has_credit_memo session o); cbn [requests length].
  - lia.
  - rewrite length_app. lia.
Qed.

Lemma filter_length {A : Type} (p : A -> bool) (l : list A) :
  (length (List.filter p l) <= length l)%nat.
Proof.
  induction l as [|a l IH]; cbn; [lia|]. destruct (p a); cbn; lia.
Qed.

(** Rule 3 on any result: what it keeps, what it returns. *)
Lemma validate_revenue_model_outcome session result :
  let m := validate_revenue_model session result in
  gathered_facts (value m) = gathered_facts result
  ∧ validation_step (value m) = validation_step result
  ∧ validation_reason (value m) ≠ ""
  ∧ (length (requests m) <= 1)%nat
  ∧ (can_resend (value m) = true →
     ∃ model,
       revenue_model (value m) = Some model
       ∧ fst (validate_revenue_model_rules model
                (or_str (payment_method result) "")
                (or_num (total_charged result) num_int0)) = true).
Proof.
  unfold validate_revenue_model, get_product_details. run.
  destruct (when PyStr.truthy (article_id result)) as [a|]; run;
    [|repeat split; try discriminate; lia].
  destruct (when truthy_product _) as [p|]; run;
    [|repeat split; try discriminate; lia].
  destruct (productJournal p) as [j|]; run.
  - destruct (when PyStr.truthy (revenueModel j)) as [model|] eqn:Hmodel;
      run; [|repeat split; try discriminate; lia].
    apply when_Some in Hmodel as [Hmodel _].
    destruct (validate_revenue_model_rules _ _ _) as [[] reason] eqn:Hrules;
      run; [destruct (is_v041_error result); run|];
      repeat split; try discriminate; try lia;
      intros _; exists model; now rewrite Hrules.
  - destruct (when PyStr.truthy (revenue_model result)) as [model|]
      eqn:Hmodel; run; [|repeat split; try discriminate; lia].
    apply when_Some in Hmodel as [Hmodel _].
    destruct (validate_revenue_model_rules _ _ _) as [[] reason] eqn:Hrules;
      run; [destruct (is_v041_error result); run|];
      repeat split; try discriminate; try lia;
      intros _; exists model; now rewrite Hrules.
Qed.

(** Rule 2.1 on any result: what it keeps, what it returns. *)
Lemma validate_v041_outcome session order_id' result :
  let m := validate_v041 session order_id' result in
  let final := value m in
  (order_id final, article_id final, order_status final,
   payment_method final, total_charged final, has_error final,
   error_code final, error_description final, error final)
  = (order_id result, article_id result, order_status result,
     payment_method result, total_charged result, has_error result,
     error_code result, error_description result, error result)
  ∧ is_v041_error final = true
  ∧ In (validation_step final) validation_steps
  ∧ validation_reason final ≠ ""
  ∧ (length (requests m) <= 2 + length (other_orders final))%nat
  ∧ (can_resend final = true →
     not_canceled order_id' (other_orders final) = []
     ∧ other_orders_not_canceled final = 0
     ∧ canceled_order_has_credit_memo final = Some true
     ∧ existsb (has_credit_memo session)
         (canceled_orders order_id' (other_orders final)) = true
     ∧ ∃ model,
         revenue_model final = Some model
         ∧ fst (validate_revenue_model_rules model
                  (or_str (payment_method result) "")
                  (or_num (total_charged result) num_int0)) = true).
Proof.
  unfold validate_v041. run.
  destruct (when PyStr.truthy (article_id result)) as [a|]; run;
    [|settle].
  rewrite get_multiple_orders_requests.
  destruct (value (get_multiple_orders session a)) as [|o others] eqn:Hothers;
    run; [settle|].
  destruct (Nat.ltb 0 (length (not_canceled order_id' (o :: others))))
    eqn:Hactive; run; [settle|].
  apply filter_nil_length in Hactive.
  fold (not_canceled order_id' (o :: others)) in Hactive.
  rewrite Hactive. cbn [length].
  pose proof (filter_length
    (λ o', negb (String.eqb (py_str (orderUniqueId o')) order_id')
           && eq_str (siblingStatus o') "OrderCanceledInAMP") (o :: others))
    as Hfilter.
  fold (canceled_orders order_id' (o :: others)) in Hfilter.
  destruct (canceled_orders order_id' (o :: others)) as [|c cs] eqn:Hcanceled;
    run; [settle|].
  pose proof (credit_memo_loop_requests_length session (c :: cs)) as Hloop.
  pose proof (credit_memo_loop_value session (c :: cs)) as Hvalue.
  destruct (value (credit_memo_loop session (c :: cs))) eqn:Hscan; run.
  - match goal with
    | |- context [validate_revenue_model session ?r] =>
        destruct (validate_revenue_model_outcome session r)
          as (Hfacts & Hstep & Hreason & Hlength & Hallow)
    end.
    unfold gathered_facts in Hfacts. run_in Hfacts.
    injection Hfacts as -> -> -> -> -> _ _ -> -> -> -> -> -> -> ->.
    rewrite Hstep. run. run_in Hallow.
    repeat split; auto 10.
    + in_steps.
    + rewrite length_app. cbn in *. lia.
    + now rewrite Hcanceled.
  - settle.
Qed.

(** The whole of [validate_order], for any session and order id. *)
Lemma validate_order_outcome session order_id' :
  let m := validate_order session order_id' in
  let r := value m in
  let answer :=
    when truthy_order
      (ok_json (order_endpoint session (ASAT_ORDER_URL order_id'))) in
  order_id r = order_id'
  ∧ In (validation_step r) validation_steps
  ∧ validation_reason r ≠ ""
  ∧ (∃ rest, requests m = ASAT_ORDER_URL order_id' :: rest
             ∧ (length rest <= 2 + length (other_orders r))%nat)
  ∧ error r
    = match answer with
      | Some _ => None
      | None => Some "Could not query the order"
      end
  ∧ (can_resend r = true →
     ∃ order_data order_details,
       fetched session order_id' order_data order_details
       ∧ eq_str (orderStatus order_details) canceled_status = false
       ∧ has_error r
         = (check_error_in_history (orderHistory order_details)).1.1
       ∧ (∃ model,
            revenue_model r = Some model
            ∧ fst (validate_revenue_model_rules model
                     (or_str (payment_method r) "")
                     (or_num (total_charged r) num_int0)) = true)
       ∧ (has_error r = true →
          error_code r = Some "V041"
          ∧ is_v041_error r = true
          ∧ not_canceled order_id' (other_orders r) = []
          ∧ canceled_order_has_credit_memo r = Some true
          ∧ existsb (has_credit_memo session)
              (canceled_orders order_id' (other_orders r)) = true)).
Proof.
  unfold validate_order, get_order_details. run.
  destruct (when truthy_order _) as [order_data|] eqn:Hfetch; run;
    [|repeat split; try in_steps; try discriminate;
      eexists; split; [reflexivity | cbn; lia]].
  destruct (orderDetails order_data) as [order_details|] eqn:Hdetails; run;
    [|repeat split; try in_steps; try discriminate;
      eexists; split; [reflexivity | cbn; lia]].
  match goal with
  | |- context [eq_str (order_status ?r) "OrderCanceledInAMP"] =>
      remember r as r0 eqn:Hr0
  end.
  assert (order_id r0 = order_id' ∧ order_status r0 = orderStatus order_details
          ∧ error r0 = None ∧ other_orders r0 = []) as (Hid & Hstatus & Herr & Hothers).
  { subst r0. destruct (article order_data), (journal order_data),
      (paymentDetails order_data); repeat split; reflexivity. }
  clear Hr0.
  destruct (eq_str (order_status r0) "OrderCanceledInAMP") eqn:Hcanceled; run.
  { rewrite Hid, Herr, Hothers.
    repeat split; try in_steps; try discriminate.
    eexists; split; [reflexivity | cbn; lia]. }
  destruct (check_error_in_history (orderHistory order_details))
    as [[[] code] desc] eqn:Hcheck; run.
  - destruct (eq_str code "V041") eqn:Hcode; run.
    + match goal with
      | |- context [validate_v041 session order_id' ?r] =>
          destruct (validate_v041_outcome session order_id' r)
            as (Hfacts & Hflag & Hstep & Hreason & Hlength & Hallow)
      end.
      run_in Hfacts. run_in Hallow.
      injection Hfacts
        as Hf1 Harticle Hstatus' Hmethod Hcharged Hf2 Hf3 Hf4 Hf5.
      rewrite ?Hf1, ?Hf2, ?Hf3, ?Hf5, ?Hid, ?Herr.
      repeat split; try assumption.
      * eexists. split; [reflexivity|]. lia.
      * intros Hcan. destruct (Hallow Hcan)
          as (Hnone & _ & Hmemo & Hscan & model & Hmodel & Hrules).
        exists order_data, order_details.
        rewrite Hmethod, Hcharged.
        rewrite Hstatus in Hcanceled.
        repeat split; try assumption; eauto; try (now rewrite Hcheck).
        destruct code as [c|]; [|discriminate]. cbn in Hcode.
        apply String.eqb_eq in Hcode. now subst c.
    + rewrite Hid, Herr, Hothers.
      repeat split; try in_steps; try discriminate.
      eexists; split; [reflexivity | cbn; lia].
  - match goal with
    | |- context [validate_revenue_model session ?r] =>
        destruct (validate_revenue_model_outcome session r)
          as (Hfacts & Hstep & Hreason & Hlength & Hallow)
    end.
    unfold gathered_facts in Hfacts. run_in Hfacts. run_in Hallow.
    run_in Hstep.
    injection Hfacts
      as Hf1 _ _ Hmethod Hcharged _ _ Hf2 _ _ _ Hf3 _ _ Hf4.
    rewrite ?Hf1, ?Hf2, ?Hf3, ?Hf4, ?Hid, ?Herr, ?Hothers, ?Hstep.
    repeat split; try in_steps; try assumption.
    + eexists. split; [reflexivity|]. cbn. lia.
    + intros Hcan. destruct (Hallow Hcan) as (model & Hmodel & Hrules).
      exists order_data, order_details.
      rewrite Hmethod, Hcharged. rewrite Hstatus in Hcanceled.
      repeat split; try assumption; eauto; try (now rewrite Hcheck);
        congruence.
Qed.

(** X6.  An approval is justified by what the result records: the order
    was fetched and is not canceled, the product details gave a revenue
    model for which the rule set allows the recorded payment method and
    amount, and either the history has no error event or its first error is
    V041, no sibling order is active and a canceled sibling has a credit
    memo.  No approved result carries the query-failure marker. *)
Theorem approval_is_justified session order_id' :
  let r := value (validate_order session order_id') in
  can_resend r = true →
  error r = None
  ∧ ∃ order_data order_details,
      fetched session order_id' order_data order_details
      ∧ eq_str (orderStatus order_details) canceled_status = false
      ∧ has_error r
        = (check_error_in_history (orderHistory order_details)).1.1
      ∧ (∃ model,
           revenue_model r = Some model
           ∧ fst (validate_revenue_model_rules model
                    (or_str (payment_method r) "")
                    (or_num (total_charged r) num_int0)) = true)
      ∧ (has_error r = true →
         error_code r = Some "V041"
         ∧ is_v041_error r = true
         ∧ not_canceled order_id' (other_orders r) = []
         ∧ canceled_order_has_credit_memo r = Some true
         ∧ existsb (has_credit_memo session)
             (canceled_orders order_id' (other_orders r)) = true).
Proof.
  intros r Hcan.
  destruct (validate_order_outcome session order_id')
    as (_ & _ & _ & _ & Herror & Hallow).
  destruct (Hallow Hcan) as (order_data & order_details & Hfetched & Hrest).
  split; [|now exists order_data, order_details].
  fold r in Herror. rewrite Herror. destruct Hfetched as [-> _]. reflexivity.
Qed.

(** X7.  Every result is labelled: it bears the id it was asked for, one of
    the nine steps of the hierarchy and a reason that is not empty. *)
Theorem result_is_labelled session order_id' :
  let r := value (validate_order session order_id') in
  order_id r = order_id'
  ∧ In (validation_step r) validation_steps
  ∧ validation_reason r ≠ "".
Proof.
  destruct (validate_order_outcome session order_id')
    as (Hid & Hstep & Hreason & _). auto.
Qed.

(** X8.  The requests of one validation: the order itself comes first, and
    at most two more requests than there are sibling orders follow (the
    sibling lookup, the orders of canceled siblings, the product
    details). *)
Theorem requests_are_bounded session order_id' :
  let m := validate_order session order_id' in
  ∃ rest,
    requests m = ASAT_ORDER_URL order_id' :: rest
    ∧ (length rest <= 2 + length (other_orders (value m)))%nat.
Proof.
  destruct (validate_order_outcome session order_id')
    as (_ & _ & _ & Hrequests & _). exact Hrequests.
Qed.

(** X9.  The query-failure marker is set exactly when the order query gives
    nothing usable (no answer, an answer that is not [ok], no JSON, an empty
    object); the order is then not approved and nothing else is
    requested. *)
Theorem query_failure_marker session order_id' :
  let m := validate_order session order_id' in
  let answer :=
    when truthy_order
      (ok_json (order_endpoint session (ASAT_ORDER_URL order_id'))) in
  (answer = None ↔ error (value m) = Some "Could not query the order")
  ∧ (answer ≠ None ↔ error (value m) = None)
  ∧ (answer = None →
     can_resend (value m) = false
     ∧ validation_step (value m) = "1. Order query"
     ∧ requests m = [ASAT_ORDER_URL order_id']).
Proof.
  intros m answer.
  destruct (validate_order_outcome session order_id')
    as (_ & _ & _ & _ & Herror & _).
  fold m answer in Herror. split; [|split].
  - rewrite Herror. destruct answer; split; congruence.
  - rewrite Herror. destruct answer; split; congruence.
  - intros Hnone. subst m. unfold validate_order, get_order_details. run.
    fold answer. rewrite Hnone. repeat split; reflexivity.
Qed.

(** From the order query to rule 2.1, whether or not there is an
    article id. *)
Lemma validate_order_reaches_v041 session order_id'
  (order_data : OrderData num) (order_details : OrderDetails) :
  fetched session order_id' order_data order_details ->
  eq_str (orderStatus order_details) canceled_status = false ->
  fst (check_error_in_history (orderHistory order_details))
  = (true, Some "V041") ->
  ∃ result,
    article_id result = article order_data ≫= id
    ∧ value (validate_order session order_id')
      = value (validate_v041 session order_id' result)
    ∧ requests (validate_order session order_id')
      = ASAT_ORDER_URL order_id'
        :: requests (validate_v041 session order_id' result).
Proof.
  intros [Hfetch Hdetails] Hstatus Herror.
  unfold validate_order, get_order_details. run.
  rewrite Hfetch, Hdetails.
  destruct (check_error_in_history (orderHistory order_details))
    as [[has_error' code] desc] eqn:Hcheck.
  cbn in Herror. injection Herror as -> ->.
  unfold canceled_status in Hstatus.
  destruct (article order_data), (journal order_data),
    (paymentDetails order_data); run; rewrite Hstatus; run;
    eexists; repeat split; reflexivity.
Qed.

(** X10.  A V041 order that cannot be looked into is denied at the step
    "2. V041 error detection": without an article id no sibling lookup is
    made; with one, an empty sibling set (whatever the reason: no answer,
    no payload, an empty payload) ends the evaluation after the
    lookup. *)
Theorem v041_without_siblings_denied session order_id'
  (order_data : OrderData num) (order_details : OrderDetails) :
  fetched session order_id' order_data order_details ->
  eq_str (orderStatus order_details) canceled_status = false ->
  fst (check_error_in_history (orderHistory order_details))
  = (true, Some "V041") ->
  let m := validate_order session order_id' in
  (when PyStr.truthy (article order_data ≫= id) = None →
   can_resend (value m) = false
   ∧ validation_reason (value m)
     = "Erro V041 detected but article_id not available"
   ∧ validation_step (value m) = "2. V041 error detection"
   ∧ requests m = [ASAT_ORDER_URL order_id'])
  ∧ (∀ article_id',
       when PyStr.truthy (article order_data ≫= id) = Some article_id' →
       siblings session article_id' = [] →
       can_resend (value m) = false
       ∧ validation_reason (value m)
         = "V041 error: could not verify other orders for the article"
       ∧ validation_step (value m) = "2. V041 error detection"
       ∧ requests m = [ASAT_ORDER_URL order_id'; siblings_url article_id']).
Proof.
  intros Hfetched Hstatus Herror m.
  destruct (validate_order_reaches_v041 _ _ _ _ Hfetched Hstatus Herror)
    as (result & Harticle & Hvalue & Hrequests).
  subst m. rewrite Hvalue, Hrequests. rewrite <- Harticle.
  unfold validate_v041. run. split.
  - intros ->. run. repeat split; reflexivity.
  - intros article_id' -> Hsiblings. run.
    unfold siblings in Hsiblings. rewrite Hsiblings. run.
    rewrite get_multiple_orders_requests. repeat split; reflexivity.
Qed.

(** X11.  An order that is fetched, is not canceled and has no error event
    in its history gets the verdict of the revenue-model stage, entered
    without the V041 flag and with the article id, the payment method and
    the amount of the order. *)
Theorem no_error_goes_to_revenue_model session order_id'
  (order_data : OrderData num) (order_details : OrderDetails) :
  fetched session order_id' order_data order_details ->
  eq_str (orderStatus order_details) canceled_status = false ->
  existsb is_error_event (orderHistory order_details) = false ->
  ∃ result,
    is_v041_error result = false
    ∧ has_error result = false
    ∧ validation_step result = "3. No errors, validating revenue model"
    ∧ article_id result = article order_data ≫= id
    ∧ payment_method result = paymentDetails order_data ≫= paymentMethod
    ∧ total_charged result
      = (λ payment, default num_int0 (totalChargedAmount payment))
        <$> paymentDetails order_data
    ∧ revenue_model result = None
    ∧ value (validate_order session order_id')
      = value (validate_revenue_model session result)
    ∧ requests (validate_order session order_id')
      = ASAT_ORDER_URL order_id'
        :: requests (validate_revenue_model session result).
Proof.
  intros [Hfetch Hdetails] Hstatus Hnone.
  assert (check_error_in_history (orderHistory order_details)
          = (false, None, None)) as Hcheck.
  { apply check_error_in_history_no_match.
    clear -Hnone. induction (orderHistory order_details) as [|e l IH];
      [reflexivity|].
    cbn in *. apply orb_false_iff in Hnone as [-> Hl]. now rewrite IH. }
  unfold validate_order, get_order_details. run.
  rewrite Hfetch, Hdetails, Hcheck. unfold canceled_status in Hstatus.
  destruct (article order_data), (journal order_data),
    (paymentDetails order_data); run; rewrite Hstatus; run;
    eexists; repeat split; reflexivity.
Qed.

(** X12.  The revenue-model stage denies, with a reason of its own, when
    the result has no article id (nothing is requested), when the product
    details cannot be fetched, and when they give no revenue model; the
    product details are requested under the article id as it stands, with
    its "PD". *)
Theorem revenue_model_stage_denials session result :
  let m := validate_revenue_model session result in
  (when PyStr.truthy (article_id result) = None →
   can_resend (value m) = false
   ∧ validation_reason (value m)
     = "article_id not available para validação de revenue model"
   ∧ requests m = [])
  ∧ (∀ article_id',
       when PyStr.truthy (article_id result) = Some article_id' →
       requests m = [PRODUCT_DETAILS_URL article_id']
       ∧ (when truthy_product
            (ok_json (product_endpoint session
                        (PRODUCT_DETAILS_URL article_id'))) = None →
          can_resend (value m) = false
          ∧ validation_reason (value m)
            = "Could not query productDetails to get revenue model")
       ∧ (∀ product_data,
            when truthy_product
              (ok_json (product_endpoint session
                          (PRODUCT_DETAILS_URL article_id')))
            = Some product_data →
            when PyStr.truthy
              (match productJournal product_data with
               | Some j => revenueModel j
               | None => revenue_model result
               end) = None →
            can_resend (value m) = false
            ∧ validation_reason (value m)
              = "Revenue model not found em productDetails")).
Proof.
  unfold validate_revenue_model, get_product_details. run. split.
  - intros ->. run. repeat split; reflexivity.
  - intros article_id' ->. run. split; [|split].
    + destruct (when truthy_product _) as [p|]; run; [|reflexivity].
      destruct (productJournal p); run;
        destruct (when PyStr.truthy _); run; try reflexivity;
        destruct (validate_revenue_model_rules _ _ _) as [[] reason];
        try destruct (is_v041_error result); reflexivity.
    + intros ->. run. split; reflexivity.
    + intros product_data -> Hmodel. run.
      destruct (productJournal product_data); run; rewrite Hmodel;
        split; reflexivity.
Qed.

(** *** The summary of [main] *)

Lemma counts_partition (all_results : list (OrderResult num)) :
  Forall (λ r, can_resend r = true → truthy_error r = false) all_results ->
  approved all_results + blocked all_results + errors all_results
  = length all_results.
Proof.
  unfold approved, blocked, errors.
  induction 1 as [|r rest Hr _ IH]; [reflexivity|].
  cbn [List.filter length].
  destruct (can_resend r) eqn:Hcan.
  - rewrite (Hr eq_refl). cbn [negb andb length]. lia.
  - destruct (truthy_error r); cbn [negb andb length]; lia.
Qed.

(** X13.  The three counts of the summary partition the batch: every
    validated order is counted once, as approved, as blocked by the rules
    or as a query error, whatever the order in which the results come. *)
Theorem summary_counts_partition (runs : list (Session num * string)) :
  let all_results :=
    map (λ run, value (validate_order run.1 run.2)) runs in
  approved all_results + blocked all_results + errors all_results
  = length runs.
Proof.
  intros all_results. rewrite <- (length_map _ runs : length all_results = _).
  apply counts_partition. subst all_results.
  apply List.Forall_forall. intros r [[session order_id'] [<- _]]%in_map_iff.
  cbn [fst snd]. intros Hcan.
  destruct (validate_order_outcome session order_id')
    as (_ & _ & _ & _ & Herror & Hallow).
  destruct (Hallow Hcan) as (d & od & [Hfetch _] & _).
  unfold truthy_error. rewrite Herror, Hfetch. reflexivity.
Qed.

Lemma bloqueio_counts_fold (all_results : list (OrderResult num))
  (counts : gmap string nat) (reason : string) :
  let step := λ (counts : gmap string nat) (r : OrderResult num),
    if negb (can_resend r) && negb (truthy_error r)
    then <[validation_reason r
           := default 0 (counts !! validation_reason r) + 1]> counts
    else counts in
  let n := length (List.filter
                     (λ r, is_blocked r
                           && String.eqb (validation_reason r) reason)
                     all_results) in
  fold_left step all_results counts !! reason
  = if Nat.eqb n 0 then counts !! reason
    else Some (default 0 (counts !! reason) + n).
Proof.
  intros step. revert counts.
  induction all_results as [|r rest IH]; intros counts; [reflexivity|].
  cbn [fold_left List.filter]. rewrite IH. unfold is_blocked.
  unfold step.
  destruct (negb (can_resend r) && negb (truthy_error r)); cbn [andb];
    [|reflexivity].
  destruct (String.eqb_spec (validation_reason r) reason) as [->|Hne].
  - rewrite lookup_insert_eq. cbn [length default].
    destruct (length _); cbn [Nat.eqb]; f_equal; cbn; lia.
  - now rewrite lookup_insert_ne.
Qed.

(** X14.  The table of blocking reasons holds, for each reason, the number
    of blocked results that have it, and no entry for a reason that no
    blocked result has. *)
Theorem blocking_reasons_table (all_results : list (OrderResult num))
  (reason : string) :
  let n := length (List.filter
                     (λ r, is_blocked r
                           && String.eqb (validation_reason r) reason)
                     all_results) in
  bloqueio_counts all_results !! reason
  = if Nat.eqb n 0 then None else Some n.
Proof.
  intros n. unfold bloqueio_counts.
  rewrite (bloqueio_counts_fold all_results ∅ reason). fold n.
  now rewrite lookup_empty.
Qed.

(** *** Reading the file *)

Lemma read_rows_spec (file_name : string) (fieldnames : list string)
  (rows : list (gmap string string)) (start : nat)
  (order_id' : string) (context : CsvContext) :
  In (order_id', context) (read_rows file_name fieldnames start rows) ↔
  ∃ i row,
    rows !! i = Some row
    ∧ order_id' = PyStr.strip (or_str (row !! "ORDER_UNIQUE_ID") "")
    ∧ order_id' ≠ ""
    ∧ context = csv_context file_name fieldnames (start + i) row.
Proof.
  revert start. induction rows as [|row rest IH]; intros start.
  - cbn. split; [tauto|]. intros (i & r & Hr & _). discriminate.
  - cbn [read_rows].
    assert (∀ s, negb (PyStr.truthy s) = false ↔ s ≠ "") as Htruthy.
    { intros [|c s]; cbn; split; congruence. }
    destruct (negb (PyStr.truthy _)) eqn:Hid.
    + rewrite IH. split.
      * intros (i & r & Hr & Ho & Hne & Hc). exists (S i), r.
        repeat split; try assumption. rewrite Hc. f_equal. lia.
      * intros (i & r & Hr & Ho & Hne & Hc). destruct i as [|i].
        -- cbn in Hr. injection Hr as <-. subst order_id'.
           apply Htruthy in Hne. congruence.
        -- exists i, r. repeat split; try assumption.
           rewrite Hc. f_equal. lia.
    + cbn [In]. rewrite IH. split.
      * intros [[= <- <-]|(i & r & Hr & Ho & Hne & Hc)].
        -- exists 0, row. repeat split.
           ++ now apply Htruthy.
           ++ f_equal. lia.
        -- exists (S i), r. repeat split; try assumption.
           rewrite Hc. f_equal. lia.
      * intros (i & r & Hr & Ho & Hne & Hc). destruct i as [|i].
        -- left. cbn in Hr. injection Hr as <-. subst.
           f_equal. f_equal. lia.
        -- right. exists i, r. repeat split; try assumption.
           rewrite Hc. f_equal. lia.
Qed.

Lemma read_rows_row_numbers (file_name : string) (fieldnames : list string)
  (rows : list (gmap string string)) (start : nat) :
  Forall (λ n, start <= n)%nat
    (map (λ pair, row_number pair.2)
       (read_rows file_name fieldnames start rows))
  ∧ StronglySorted lt
      (map (λ pair, row_number pair.2)
         (read_rows file_name fieldnames start rows)).
Proof.
  revert start. induction rows as [|row rest IH]; intros start.
  - split; constructor.
  - cbn [read_rows]. destruct (IH (S start)) as [Hge Hsorted].
    assert (Forall (λ n, start <= n)%nat
              (map (λ pair, row_number pair.2)
                 (read_rows file_name fieldnames (S start) rest))) as Hge'.
    { eapply List.Forall_impl; [|exact Hge]. cbn. intros; lia. }
    destruct (negb (PyStr.truthy _)); [now split|].
    cbn [map snd row_number csv_context]. split.
    + constructor; [lia | exact Hge'].
    + constructor; [exact Hsorted|].
      eapply List.Forall_impl; [|exact Hge]. cbn. intros; lia.
Qed.


(** X16.  With a header that has the column, the generator yields, in the
    order of the file, one pair for each row whose ORDER_UNIQUE_ID cell is
    not blank: the stripped cell and the context of the row, whose
    [row_number] is the position of the row counted from 2, skipped rows
    included; the row numbers yielded increase strictly. *)
Theorem read_csv_orders_rows (file_name : string) (fieldnames : list string)
  (rows : list (gmap string string)) :
  "ORDER_UNIQUE_ID" ∈ fieldnames ->
  ∃ orders,
    read_csv_orders file_name (Some fieldnames) rows = inr orders
    ∧ (∀ order_id' context,
         In (order_id', context) orders ↔
         ∃ i row,
           rows !! i = Some row
           ∧ order_id' = PyStr.strip (or_str (row !! "ORDER_UNIQUE_ID") "")
           ∧ order_id' ≠ ""
           ∧ context = csv_context file_name fieldnames (2 + i) row)
    ∧ StronglySorted lt (map (λ pair, row_number pair.2) orders)
    ∧ (length orders <= length rows)%nat.
Proof.
  intros Hin. unfold read_csv_orders.
  destruct fieldnames as [|field fields]; [now apply not_elem_of_nil in Hin|].
  rewrite (bool_decide_eq_true_2 _ Hin).
  eexists. split; [reflexivity|]. split; [|split].
  - intros order_id' context. apply read_rows_spec.
  - apply read_rows_row_numbers.
  - generalize 2. induction rows as [|row rest IH]; intros start;
      cbn [read_rows length]; [lia|].
    specialize (IH (S start)).
    destruct (negb (PyStr.truthy _)); cbn [length]; lia.
Qed.

(** *** The interactive selection *)

Lemma select_subset (approved : list (OrderResult num)) (indices : list Z)
  (r : OrderResult num) :
  In r (select approved indices) -> In r approved.
Proof.
  unfold select. rewrite <- !list_elem_of_In.
  intros (i & _ & Hi)%list_elem_of_omap.
  destruct ((1 <=? i)%Z && (i <=? Z.of_nat (length approved))%Z);
    [|discriminate].
  eapply list_elem_of_lookup_2. exact Hi.
Qed.

(** What the loop of [ask_user_resend] can return. *)
Lemma ask_loop_result (py_int : string -> option Z)
  (approved : list (OrderResult num)) (keyboard : list string) :
  ask_loop py_int approved keyboard = []
  ∨ ∃ answer,
      In answer keyboard
      ∧ confirmed answer = true
      ∧ (ask_loop py_int approved keyboard = approved
         ∨ ∃ indices,
             ask_loop py_int approved keyboard = select approved indices).
Proof.
  assert (∀ n keyboard, (length keyboard <= n)%nat →
          ask_loop py_int approved keyboard = []
          ∨ ∃ answer,
              In answer keyboard
              ∧ confirmed answer = true
              ∧ (ask_loop py_int approved keyboard = approved
                 ∨ ∃ indices,
                     ask_loop py_int approved keyboard
                     = select approved indices)) as Hall;
    [|exact (Hall (length keyboard) keyboard (le_n _))].
  clear keyboard. induction n as [|n IH]; intros [|line keyboard] Hlength;
    try (now left); try (cbn in Hlength; lia).
  cbn [length] in Hlength.
  assert (∀ keyboard' : list string,
            (length keyboard' <= length keyboard)%nat →
            (∀ answer, In answer keyboard' → In answer (line :: keyboard)) →
            ask_loop py_int approved keyboard' = []
            ∨ ∃ answer,
                In answer (line :: keyboard)
                ∧ confirmed answer = true
                ∧ (ask_loop py_int approved keyboard' = approved
                   ∨ ∃ indices,
                       ask_loop py_int approved keyboard'
                       = select approved indices)) as Hnext.
  { intros keyboard' Hshorter Hsub.
    destruct (IH keyboard' ltac:(lia)) as [Hnil|(answer & Hin & Hrest)];
      [now left | right; eauto]. }
  cbn [ask_loop].
  destruct (String.eqb (PyStr.strip line) "1").
  { destruct keyboard as [|answer rest]; [now left|].
    destruct (confirmed answer) eqn:Hanswer; [|now left].
    right. exists answer. cbn [In]. auto. }
  destruct (String.eqb (PyStr.strip line) "2").
  { destruct keyboard as [|numbers rest]; [now left|].
    assert (∀ answer, In answer rest → In answer (line :: numbers :: rest))
      as Hsub by (cbn [In]; auto).
    destruct (parse_indices py_int (PyStr.strip numbers)) as [indices|];
      [|apply Hnext; [cbn [length]; lia | exact Hsub]].
    destruct (select approved indices) as [|r selected] eqn:Hselected;
      [apply Hnext; [cbn [length]; lia | exact Hsub]|].
    destruct rest as [|answer rest]; [now left|].
    destruct (confirmed answer) eqn:Hanswer; [|now left].
    right. exists answer. cbn [In]. repeat split; auto.
    right. exists indices. now rewrite Hselected. }
  destruct (String.eqb (PyStr.strip line) "3"); [now left|].
  apply Hnext; [lia | cbn [In]; auto].
Qed.


(** X18.  [main] hands to [resend_orders_batch] only results of the batch
    that are approved, and only in interactive mode: with [--no-interactive]
    or without an approved order nothing is resent. *)
Theorem only_approved_orders_are_resent (py_int : string -> option Z)
  (no_interactive : bool) (all_results : list (OrderResult num))
  (keyboard : list string) (to_resend : list (OrderResult num)) :
  orders_to_resend py_int no_interactive all_results keyboard
  = Some to_resend ->
  no_interactive = false
  ∧ to_resend ≠ []
  ∧ ∀ r, In r to_resend → In r all_results ∧ can_resend r = true.
Proof.
  unfold orders_to_resend, display_resendable_orders.
  destruct (List.filter can_resend all_results) as [|a approved] eqn:Happroved;
    [discriminate|].
  destruct no_interactive; [discriminate|]. cbn [negb].
  destruct (ask_user_resend py_int (a :: approved) keyboard)
    as [|r0 rest] eqn:Hselected; [discriminate|].
  intros [= <-]. split; [reflexivity|]. split; [discriminate|].
  intros r Hr. apply filter_In. rewrite Happroved.
  unfold ask_user_resend in Hselected.
  destruct (ask_loop_result py_int (a :: approved) keyboard)
    as [Hnil|(answer & _ & _ & [Hall|[indices Hsome]])].
  - rewrite Hnil in Hselected. discriminate.
  - now rewrite <- Hall, Hselected.
  - rewrite Hselected in Hsome. rewrite Hsome in Hr.
    now apply select_subset in Hr.
Qed.

End MoreProperties.

(** ** The further properties on the sample snapshots *)

Lemma clean_article_id_leading_PD_witness :
  PyStr.contains "PD" (spec_strip_leading_PD "PD502") = false
  ∧ clean_article_id "PD502" = "502".
Proof.
  split; [reflexivity|].
  exact (clean_article_id_leading_PD "PD502" eq_refl).
Defined.

Lemma approval_is_justified_witness :
  can_resend (value (validate_order Sample.session "2001")) = true
  ∧ error (value (validate_order Sample.session "2001")) = None.
Proof.
  split; [reflexivity|].
  exact (proj1 (approval_is_justified Sample.session "2001" eq_refl)).
Defined.

Lemma v041_without_siblings_denied_witness :
  fetched SampleBatch.session "7001" SampleBatch.order_7001
    SampleBatch.details_7001
  ∧ eq_str (orderStatus SampleBatch.details_7001) canceled_status = false
  ∧ fst (check_error_in_history (orderHistory SampleBatch.details_7001))
    = (true, Some "V041")
  ∧ siblings SampleBatch.session "PD507" = []
  ∧ validation_reason (value (validate_order SampleBatch.session "7001"))
    = "V041 error: could not verify other orders for the article".
Proof.
  assert (fetched SampleBatch.session "7001" SampleBatch.order_7001
            SampleBatch.details_7001) as Hfetched by (split; reflexivity).
  split; [exact Hfetched|]. split; [reflexivity|]. split; [reflexivity|].
  split; [reflexivity|].
  exact (proj1 (proj2 (proj2
    (v041_without_siblings_denied SampleBatch.session "7001" _ _
       Hfetched eq_refl eq_refl) "PD507" eq_refl eq_refl))).
Defined.

Lemma no_error_goes_to_revenue_model_witness :
  fetched SampleBatch.session "7002" SampleBatch.order_7002
    SampleBatch.details_7002
  ∧ eq_str (orderStatus SampleBatch.details_7002) canceled_status = false
  ∧ existsb is_error_event (orderHistory SampleBatch.details_7002) = false
  ∧ ∃ result,
      validation_step result = "3. No errors, validating revenue model"
      ∧ value (validate_order SampleBatch.session "7002")
        = value (validate_revenue_model SampleBatch.session result).
Proof.
  assert (fetched SampleBatch.session "7002" SampleBatch.order_7002
            SampleBatch.details_7002) as Hfetched by (split; reflexivity).
  split; [exact Hfetched|]. split; [reflexivity|]. split; [reflexivity|].
  destruct (no_error_goes_to_revenue_model SampleBatch.session "7002" _ _
              Hfetched eq_refl eq_refl)
    as (result & _ & _ & Hstep & _ & _ & _ & _ & Hvalue & _).
  exists result. split; [exact Hstep | exact Hvalue].
Defined.

Lemma read_csv_orders_rows_witness :
  "ORDER_UNIQUE_ID" ∈ SampleBatch.header
  ∧ ∃ orders,
      read_csv_orders "orders.csv" (Some SampleBatch.header) SampleBatch.rows
      = inr orders
      ∧ (length orders <= length SampleBatch.rows)%nat.
Proof.
  assert ("ORDER_UNIQUE_ID" ∈ SampleBatch.header) as Hheader
    by (apply list_elem_of_In; cbn; auto).
  split; [exact Hheader|].
  destruct (read_csv_orders_rows "orders.csv" SampleBatch.header
              SampleBatch.rows Hheader)
    as (orders & Hread & _ & _ & Hlength).
  exists orders. split; [exact Hread | exact Hlength].
Defined.


Lemma only_approved_orders_are_resent_witness :
  orders_to_resend SampleBatch.digits_value false SampleBatch.all_results
    ["2"; "1"; "yes"]
  = Some [value (validate_order Sample.session "2001")]
  ∧ ∀ r, In r [value (validate_order Sample.session "2001")] →
         In r SampleBatch.all_results ∧ can_resend r = true.
Proof.
  assert (orders_to_resend SampleBatch.digits_value false
            SampleBatch.all_results ["2"; "1"; "yes"]
          = Some [value (validate_order Sample.session "2001")]) as Hrun
    by (vm_compute; reflexivity).
  split; [exact Hrun|].
  exact (proj2 (proj2
    (only_approved_orders_are_resent SampleBatch.digits_value false
       SampleBatch.all_results ["2"; "1"; "yes"] _ Hrun))).
Defined.
